(** * Dynamics of a Hoomd MD simulation: statdyn/TimeDep.py

    A shallow embedding of the classes [TimeDep], [TimeDep2dRigid] and
    [TimeDepMany].  numpy float arrays are idealised as lists of real
    numbers, integer arrays as lists of [Z]; a python exception is a
    left injection in the [Result] type, and the HDF5 files written by
    [TimeDepMany] live in an explicit file-system map. *)

From Stdlib Require Import Reals Lra Lia ZArith List.
From stdpp Require Import base option list gmap strings.

(** ** Exceptions *)

Inductive exn : Type :=
  | IndexError
  | KeyError
  | ValueError
  | RecursionError.

Definition Result (A : Type) : Type := (exn + A)%type.

Definition ok {A : Type} (a : A) : Result A := inr a.
Definition raise {A : Type} (e : exn) : Result A := inl e.

Definition bind {A B : Type} (m : Result A) (k : A -> Result B) : Result B :=
  match m with
  | inl e => inl e
  | inr a => k a
  end.

Notation "x <~ m ;; k" := (bind m (fun x => k))
  (at level 100, m at next level, right associativity).

(** ** Array rows *)

Definition vec3 : Type := (R * R * R)%type.
Definition ivec3 : Type := (Z * Z * Z)%type.

Module Np.
Local Open Scope R_scope.

Definition add3 (a b : vec3) : vec3 :=
  let '(ax, ay, az) := a in
  let '(bx, by_, bz) := b in (ax + bx, ay + by_, az + bz).

Definition sub3 (a b : vec3) : vec3 :=
  let '(ax, ay, az) := a in
  let '(bx, by_, bz) := b in (ax - bx, ay - by_, az - bz).

Definition isub3 (a b : ivec3) : ivec3 :=
  let '(ax, ay, az) := a in
  let '(bx, by_, bz) := b in ((ax - bx)%Z, (ay - by_)%Z, (az - bz)%Z).

(** An integer row times a float row: the integers are cast to float. *)
Definition imul3 (i : ivec3) (l : vec3) : vec3 :=
  let '(ix, iy, iz) := i in
  let '(lx, ly, lz) := l in (IZR ix * lx, IZR iy * ly, IZR iz * lz).

(** [np.power(row, 2).sum()] over the three columns of one row. *)
Definition sum_sq (a : vec3) : R :=
  let '(x, y, z) := a in x ^ 2 + y ^ 2 + z ^ 2.

(** Element-wise binary operation on two arrays whose rows have the same
    width, with numpy's broadcasting on the first axis: equal lengths
    pair up, an array of one row is stretched, anything else is a
    ValueError. *)
Definition broadcast {A B C : Type} (f : A -> B -> C)
    (xs : list A) (ys : list B) : Result (list C) :=
  if Nat.eqb (length xs) (length ys) then ok (zip_with f xs ys)
  else match xs, ys with
       | [x], _ => ok (map (f x) ys)
       | _, [y] => ok (map (fun x => f x y) xs)
       | _, _ => raise ValueError
       end.

(** [a[:n]] with python's treatment of a negative stop. *)
Definition slice_to {A : Type} (n : Z) (l : list A) : list A :=
  if (0 <=? n)%Z then firstn (Z.to_nat n) l
  else firstn (length l - Z.to_nat (- n)) l.

(** [np.max] of an integer array; an empty array is a ValueError. *)
Definition max (l : list Z) : Result Z :=
  match l with
  | [] => raise ValueError
  | x :: rest => ok (fold_left Z.max rest x)
  end.
End Np.

(** ** Snapshots *)

(** The box of a snapshot is reached either as [snapshot.box.Lx] (a hoomd
    snapshot) or, when that attribute is missing, as the array
    [snapshot.configuration.box] (a gsd frame). *)
Inductive box_source : Type :=
  | BoxAttr (Lx Ly Lz : R)
  | ConfigurationBox (box : list R).

Definition quat_row : Type := (R * R * R * R)%type.

Record Snapshot : Type := mkSnapshot {
  position : list vec3;
  image : list ivec3;
  orientation : list quat_row;
  body : list Z;
  sbox : box_source
}.

(** The try/except at the head of [_unwrap]. *)
Definition box_dim (s : Snapshot) : Result vec3 :=
  match sbox s with
  | BoxAttr Lx Ly Lz => ok (Lx, Ly, Lz)
  | ConfigurationBox b =>
      match b !! 0%nat, b !! 1%nat, b !! 2%nat with
      | Some l0, Some l1, Some l2 => ok (l0, l1, l2)
      | _, _, _ => raise IndexError
      end
  end.

(** ** Data frames *)

Record Row : Type := mkRow {
  displacement : R;
  rotation : option R;
  time : Z;
  start_index : option Z
}.

Abbreviation DataFrame := (list Row).

(** ** class TimeDep *)

Module TimeDep.
Local Open Scope R_scope.

Record t : Type := mk {
  t_init : Snapshot;
  timestep : Z;
  pos_init : list vec3;
  image_init : list ivec3;
  _data : DataFrame
}.

Definition get_time_diff (self : t) (timestep' : Z) : Z :=
  (timestep' - timestep self)%Z.

Definition _unwrap (self : t) (snapshot : Snapshot) : Result (list vec3) :=
  box <~ box_dim snapshot ;;
  let pos := position snapshot in
  image <~ Np.broadcast Np.isub3 (image snapshot) (image_init self) ;;
  Np.broadcast Np.add3 pos (map (fun i => Np.imul3 i box) image).

Definition _displacement (self : t) (snapshot : Snapshot) : Result (list R) :=
  curr <~ _unwrap self snapshot ;;
  diff <~ Np.broadcast Np.sub3 curr (pos_init self) ;;
  ok (map (fun d => sqrt (Np.sum_sq d)) diff).

(** [pandas.DataFrame({'displacement': ..., 'time': ...})]: the scalar
    time is repeated on every row. *)
Definition frame (disp : list R) (time' : Z) : DataFrame :=
  map (fun d => mkRow d None time' None) disp.

Definition get_data (self : t) (snapshot : Snapshot) (timestep' : Z)
    : Result DataFrame :=
  disp <~ _displacement self snapshot ;;
  ok (frame disp (get_time_diff self timestep')).

Definition _init_snapshot (snapshot : Snapshot) (timestep' : Z) : t :=
  mk snapshot timestep' (position snapshot) (image snapshot) [].

Definition __init__ (snapshot : Snapshot) (timestep' : Z) : Result t :=
  let self := _init_snapshot snapshot timestep' in
  data <~ get_data self snapshot timestep' ;;
  ok (mk (t_init self) (timestep self) (pos_init self) (image_init self) data).

Definition get_all_data (self : t) : DataFrame := _data self.
End TimeDep.

(** ** The quaternion package

    [quaternion.as_quat_array], quaternion division and
    [quaternion.as_rotation_vector] are functions of the numpy-quaternion
    package.  Division is [q1 * conjugate q2 / |q2|^2]; the rotation
    vector is twice the vector part of the logarithm of the normalised
    quaternion. *)

Module Quaternion.
Local Open Scope R_scope.

Definition quaternion : Type := quat_row.

Definition as_quat_array (a : list quat_row) : list quaternion := a.

Definition norm (q : quaternion) : R :=
  let '(w, x, y, z) := q in w * w + x * x + y * y + z * z.

Definition divide (q1 q2 : quaternion) : quaternion :=
  let '(w1, x1, y1, z1) := q1 in
  let '(w2, x2, y2, z2) := q2 in
  let n := norm q2 in
  ((w1 * w2 + x1 * x2 + y1 * y2 + z1 * z2) / n,
   (- w1 * x2 + x1 * w2 - y1 * z2 + z1 * y2) / n,
   (- w1 * y2 + x1 * z2 + y1 * w2 - z1 * x2) / n,
   (- w1 * z2 - x1 * y2 + y1 * x2 + z1 * w2) / n).

Definition normalized (q : quaternion) : quaternion :=
  let '(w, x, y, z) := q in
  let a := sqrt (norm q) in (w / a, x / a, y / a, z / a).

Definition QUATERNION_EPS : R := / 10 ^ 14.

Definition atan2 (y x : R) : R :=
  if Rlt_dec 0 x then atan (y / x)
  else if Rlt_dec x 0 then
    (if Rle_dec 0 y then atan (y / x) + PI else atan (y / x) - PI)
  else if Rlt_dec 0 y then PI / 2
  else if Rlt_dec y 0 then - (PI / 2)
  else 0.

(** Vector part of the quaternion logarithm. *)
Definition log_vec (q : quaternion) : vec3 :=
  let '(w, x, y, z) := q in
  let b := sqrt (x * x + y * y + z * z) in
  if Rle_dec (Rabs b) (QUATERNION_EPS * Rabs w) then
    (if Rlt_dec w 0 then (PI, 0, 0) else (0, 0, 0))
  else
    let v := atan2 b w in
    let f := v / b in (f * x, f * y, f * z).

Definition as_rotation_vector (q : quaternion) : vec3 :=
  let '(x, y, z) := log_vec (normalized q) in (2 * x, 2 * y, 2 * z).
End Quaternion.

(** ** class TimeDep2dRigid(TimeDep) *)

Module TimeDep2dRigid.
Local Open Scope R_scope.

Record t : Type := mk {
  base : TimeDep.t;
  bodies : Z;
  orient_init : list Quaternion.quaternion
}.

Definition array2quat (array : list quat_row) : list Quaternion.quaternion :=
  Quaternion.as_quat_array array.

Definition _init_snapshot (snapshot : Snapshot) (timestep' : Z) : Result t :=
  let super := TimeDep._init_snapshot snapshot timestep' in
  m <~ Np.max (body (TimeDep.t_init super)) ;;
  let bodies' := (m + 1)%Z in
  ok (mk super bodies'
        (array2quat (Np.slice_to bodies' (orientation (TimeDep.t_init super))))).

(** The two masked in-place updates at the end of [_rotations]. *)
Definition sub_above (rot : list R) : list R :=
  map (fun r => if Rgt_dec r PI then r - 2 * PI else r) rot.

Definition add_below (rot : list R) : list R :=
  map (fun r => if Rle_dec r (- PI) then r + 2 * PI else r) rot.

Definition rotvec_sum (q : Quaternion.quaternion) : R :=
  let '(x, y, z) := Quaternion.as_rotation_vector q in x + y + z.

Definition _rotations (self : t) (snapshot : Snapshot) : Result (list R) :=
  let orient_final :=
    array2quat (Np.slice_to (bodies self) (orientation snapshot)) in
  rot_q <~ Np.broadcast Quaternion.divide orient_final (orient_init self) ;;
  let rot := map rotvec_sum rot_q in
  ok (add_below (sub_above rot)).

Definition _displacement (self : t) (snapshot : Snapshot) : Result (list R) :=
  unwrapped <~ TimeDep._unwrap (base self) snapshot ;;
  let curr := Np.slice_to (bodies self) unwrapped in
  diff <~ Np.broadcast Np.sub3 curr
            (Np.slice_to (bodies self) (TimeDep.pos_init (base self))) ;;
  ok (map (fun d => sqrt (Np.sum_sq d)) diff).

Definition _all_displacement (self : t) (snapshot : Snapshot)
    : Result (list R) :=
  TimeDep._displacement (base self) snapshot.

(** [pandas.DataFrame] of two array columns and a scalar: arrays of
    different lengths are a ValueError. *)
Definition frame (disp rot : list R) (time' : Z) : Result DataFrame :=
  if Nat.eqb (length disp) (length rot)
  then ok (zip_with (fun d r => mkRow d (Some r) time' None) disp rot)
  else raise ValueError.

Definition get_data (self : t) (snapshot : Snapshot) (timestep' : Z)
    : Result DataFrame :=
  disp <~ _displacement self snapshot ;;
  rot <~ _rotations self snapshot ;;
  frame disp rot (TimeDep.get_time_diff (base self) timestep').

Definition set_data (self : t) (data : DataFrame) : t :=
  let b := base self in
  mk (TimeDep.mk (TimeDep.t_init b) (TimeDep.timestep b)
        (TimeDep.pos_init b) (TimeDep.image_init b) data)
     (bodies self) (orient_init self).

Definition __init__ (snapshot : Snapshot) (timestep' : Z) : Result t :=
  self <~ _init_snapshot snapshot timestep' ;;
  data <~ get_data self snapshot timestep' ;;
  ok (set_data self data).

Definition append (self : t) (snapshot : Snapshot) (timestep' : Z)
    : Result t :=
  data <~ get_data self snapshot timestep' ;;
  ok (set_data self (TimeDep._data (base self) ++ data)).

Definition get_all_data (self : t) : DataFrame := TimeDep._data (base self).
End TimeDep2dRigid.

(** ** Paths and files *)

(** A path is kept as its name split before the final suffix; [str] is
    the file name the operating system sees. *)
Record Path : Type := mkPath {
  stem : string;
  suffix : string
}.

Definition with_suffix (p : Path) (s : string) : Path := mkPath (stem p) s.

Definition str (p : Path) : string := (stem p ++ suffix p)%string.

(** The files on disk: a file name maps to the rows of the table
    ['dynamics'] of the store held in that file. *)
Abbreviation FileSystem := (gmap string DataFrame).

Definition exists_ (fs : FileSystem) (p : Path) : bool :=
  bool_decide (is_Some (fs !! str p)).

(** [Path.rename]: the file moves to the target name, replacing what was
    there. *)
Definition rename (fs : FileSystem) (p target : Path) : FileSystem :=
  match fs !! str p with
  | Some content => <[str target := content]> (delete (str p) fs)
  | None => fs
  end.

(** ** class TimeDepMany *)

Module TimeDepMany.

Record t : Type := mk {
  _path : Path;
  _snapshots : gmap Z TimeDep2dRigid.t
}.

Definition _check_files (self : t) (fs : FileSystem) : FileSystem :=
  if exists_ fs (_path self)
  then rename fs (_path self) (with_suffix (_path self) ".hdf5.bak")
  else fs.

Definition __init__ (filename : option Path) (fs : FileSystem)
    : t * FileSystem :=
  let path :=
    match filename with
    | Some f => with_suffix f ".hdf5"
    | None => mkPath "TimeDepMany" ".hdf5"
    end in
  let self := mk path ∅ in
  (self, _check_files self fs).

(** [pandas.HDFStore(path)] opens the file for appending and creates
    it when it is missing; the store is closed at the end of the
    [with] block. *)
Definition _write_file (self : t) (fs : FileSystem) (data : DataFrame)
    : FileSystem :=
  <[str (_path self) := default [] (fs !! str (_path self)) ++ data]> fs.

(** [data['start_index'] = index] *)
Definition set_start_index (index : Z) (data : DataFrame) : DataFrame :=
  map (fun r => mkRow (displacement r) (rotation r) (time r) (Some index)) data.

(** The body of the [try] block of [append], up to the write. *)
Definition try_get (self : t) (snapshot : Snapshot) (index timestep : Z)
    : Result DataFrame :=
  match _snapshots self !! index with
  | None => raise KeyError
  | Some tracker =>
      data <~ TimeDep2dRigid.get_data tracker snapshot timestep ;;
      ok (set_start_index index data)
  end.

(** [append] and [add_init] call each other; [depth] is the number of
    python frames still available, and running out of them is a
    RecursionError. *)
Fixpoint append_rec (depth : nat) (self : t) (fs : FileSystem)
    (snapshot : Snapshot) (index timestep : Z)
    : Result unit * (t * FileSystem) :=
  match depth with
  | O => (raise RecursionError, (self, fs))
  | S depth' =>
      match try_get self snapshot index timestep with
      | inr data => (ok tt, (self, _write_file self fs data))
      | inl IndexError | inl KeyError =>
          add_init_rec depth' self fs snapshot index timestep
      | inl e => (raise e, (self, fs))
      end
  end
with add_init_rec (depth : nat) (self : t) (fs : FileSystem)
    (snapshot : Snapshot) (index timestep : Z)
    : Result unit * (t * FileSystem) :=
  match depth with
  | O => (raise RecursionError, (self, fs))
  | S depth' =>
      match TimeDep2dRigid.__init__ snapshot timestep with
      | inl e => (raise e, (self, fs))
      | inr tracker =>
          let self' := mk (_path self) (<[index := tracker]> (_snapshots self)) in
          append_rec depth' self' fs snapshot index timestep
      end
  end.

Definition recursion_limit : nat := 1000.

Definition append := append_rec recursion_limit.
Definition add_init := add_init_rec recursion_limit.

Definition get_datafile (self : t) : Path := _path self.
End TimeDepMany.

(** * Specification-side definitions and example data *)

(** ** What the specification says, in its own words *)

(** The absolute position [p + (I - I0) * L], component by component. *)
Definition unwrap_spec (p : vec3) (I I0 : ivec3) (L : vec3) : vec3 :=
  let '(px, py, pz) := p in
  let '(ix, iy, iz) := I in
  let '(jx, jy, jz) := I0 in
  let '(lx, ly, lz) := L in
  (px + IZR (ix - jx) * lx, py + IZR (iy - jy) * ly, pz + IZR (iz - jz) * lz)%R.

(** The Euclidean norm of [a - b]. *)
Definition euclid_spec (a b : vec3) : R :=
  let '(ax, ay, az) := a in
  let '(bx, by_, bz) := b in
  sqrt ((ax - bx) ^ 2 + (ay - by_) ^ 2 + (az - bz) ^ 2)%R.

(** The array [_unwrap] computes when every shape agrees. *)
Definition unwrapped (self : TimeDep.t) (snapshot : Snapshot) (L : vec3)
  : list vec3 :=
  zip_with Np.add3 (position snapshot)
    (map (fun i => Np.imul3 i L)
       (zip_with Np.isub3 (image snapshot) (TimeDep.image_init self))).

(** The array [TimeDep._displacement] computes when every shape agrees. *)
Definition displaced (self : TimeDep.t) (snapshot : Snapshot) (L : vec3)
  : list R :=
  map (fun d => sqrt (Np.sum_sq d))
    (zip_with Np.sub3 (unwrapped self snapshot L) (TimeDep.pos_init self)).

(** The array [TimeDep2dRigid._displacement] computes when every shape
  agrees. *)
Definition rigid_displaced (self : TimeDep2dRigid.t) (snapshot : Snapshot)
  (L : vec3) : list R :=
  map (fun d => sqrt (Np.sum_sq d))
    (zip_with Np.sub3
       (Np.slice_to (TimeDep2dRigid.bodies self)
          (unwrapped (TimeDep2dRigid.base self) snapshot L))
       (Np.slice_to (TimeDep2dRigid.bodies self)
          (TimeDep.pos_init (TimeDep2dRigid.base self)))).

(** The scenario of the specification: one body in a box of side 10. *)
Definition scenario_origin : Snapshot :=
  mkSnapshot [(9, 0, 0)%R] [(0, 0, 0)%Z] [] [] (BoxAttr 10 10 10).

Definition scenario_current : Snapshot :=
  mkSnapshot [(1, 0, 0)%R] [(1, 0, 0)%Z] [] [] (BoxAttr 10 10 10).

Definition scenario_tracker : TimeDep.t :=
  TimeDep._init_snapshot scenario_origin 0.

(** Two bodies of which only the first is a rigid-body centre. *)
Definition two_body_origin : Snapshot :=
  mkSnapshot [(9, 0, 0)%R; (3, 4, 0)%R] [(0, 0, 0)%Z; (0, 0, 0)%Z]
    [(1, 0, 0, 0)%R; (1, 0, 0, 0)%R] [0%Z; (-1)%Z] (BoxAttr 10 10 10).

Definition two_body_current : Snapshot :=
  mkSnapshot [(1, 0, 0)%R; (5, 5, 0)%R] [(1, 0, 0)%Z; (0, 0, 0)%Z]
    [(1, 0, 0, 0)%R; (1, 0, 0, 0)%R] [0%Z; (-1)%Z] (BoxAttr 10 10 10).

Definition two_body_tracker : TimeDep2dRigid.t :=
  TimeDep2dRigid.mk (TimeDep._init_snapshot two_body_origin 0) 1
    [(1, 0, 0, 0)%R].

(** The trivial record: no displacement, no rotation, no elapsed time. *)
Definition zero_row (with_rotation : bool) (r : Row) : Prop :=
  displacement r = 0%R /\
  rotation r = (if with_rotation then Some 0%R else None) /\
  time r = 0%Z.

(** A snapshot as the simulation hands it over: every per-body array has
    one row per body, there is at least one body, the box has its three
    lengths and no orientation is the zero quaternion. *)
Definition well_formed (s : Snapshot) : Prop :=
  length (position s) = length (image s) /\
  length (orientation s) = length (position s) /\
  length (body s) = length (position s) /\
  body s <> [] /\
  (exists L, box_dim s = ok L) /\
  Forall (fun q => Quaternion.norm q <> 0%R) (orientation s).

(** The branch-cut correction in the words of the specification: a value
    above [PI] is decreased by [2 * PI], a value at or below [- PI] is
    increased by [2 * PI]. *)
Definition branch_cut_spec (s : R) : R :=
  if Rgt_dec s PI then (s - 2 * PI)%R
  else if Rle_dec s (- PI) then (s + 2 * PI)%R
  else s.

(** A rigid body turned by 6 radians about the axis (1,1,1), seen from an
    origin in the identity orientation. *)
Definition skew_quaternion : Quaternion.quaternion :=
  (cos 3, sin 3 / sqrt 3, sin 3 / sqrt 3, sin 3 / sqrt 3)%R.

Definition skew_origin : Snapshot :=
  mkSnapshot [(0, 0, 0)%R] [(0, 0, 0)%Z] [(1, 0, 0, 0)%R] [0%Z]
    (BoxAttr 10 10 10).

Definition skew_current : Snapshot :=
  mkSnapshot [(0, 0, 0)%R] [(0, 0, 0)%Z] [skew_quaternion] [0%Z]
    (BoxAttr 10 10 10).

Definition skew_tracker : TimeDep2dRigid.t :=
  TimeDep2dRigid.mk (TimeDep._init_snapshot skew_origin 0) 1 [(1, 0, 0, 0)%R].

(** The scenario origin captured at timestep 10. *)
Definition late_tracker : TimeDep.t :=
  TimeDep._init_snapshot scenario_origin 10.

(** A frame with its time column overwritten. *)
Definition retime (tm : Z) (data : DataFrame) : DataFrame :=
  map (fun r => mkRow (displacement r) (rotation r) tm (start_index r)) data.


(** The accumulator with no file name given, and one holding a single
    tracker at origin index 0. *)
Definition default_path : Path := mkPath "TimeDepMany" ".hdf5".

Definition one_origin (tracker : TimeDep2dRigid.t) : TimeDepMany.t :=
  TimeDepMany.mk default_path {[ 0%Z := tracker ]}.

(** Equality of rows, column by column. *)
Ltac tuple_eq :=
  repeat match goal with
         | |- (_, _) = (_, _) => f_equal
         end.

(** ** basic.py: the sampling loop of [run_npt]

    [run_npt] builds a [TimeDep2dRigid] on the first snapshot at timestep 0
    and calls [dynamics.append] once for every step the simulation is run
    to; the simulation is outside this development, so the snapshots it
    hands over come in as the list [frames] of pairs of a step and the
    snapshot taken at that step. *)
Fixpoint append_frames (dynamics : TimeDep2dRigid.t)
    (frames : list (Z * Snapshot)) : Result TimeDep2dRigid.t :=
  match frames with
  | [] => ok dynamics
  | (curr_step, snapshot) :: rest =>
      dynamics' <~ TimeDep2dRigid.append dynamics snapshot curr_step ;;
      append_frames dynamics' rest
  end.

Definition run_npt (initial : Snapshot) (frames : list (Z * Snapshot))
    : Result DataFrame :=
  dynamics <~ TimeDep2dRigid.__init__ initial 0 ;;
  dynamics' <~ append_frames dynamics frames ;;
  ok (TimeDep2dRigid.get_all_data dynamics').

(** ** Further notions used in the statements *)



(** A rotation about the z axis, the orientation of a body that moves in
    the plane. *)
Definition planar (q : Quaternion.quaternion) : Prop :=
  let '(w, x, y, z) := q in x = 0%R /\ y = 0%R.

(** The frames the tracker returns one after the other on a list of
    pairs of a step and a snapshot. *)
Definition observations (dynamics : TimeDep2dRigid.t)
    (frames : list (Z * Snapshot)) : list (Result DataFrame) :=
  map (fun f => TimeDep2dRigid.get_data dynamics (snd f) (fst f)) frames.

(** The exceptions the tracker itself can raise. *)
Definition tracker_error (e : exn) : Prop := e = IndexError \/ e = ValueError.


(** All the frames of a list put end to end, or the first exception met. *)
Fixpoint gather (frames : list (Result DataFrame)) : Result DataFrame :=
  match frames with
  | [] => ok []
  | r :: rest =>
      data <~ r ;;
      more <~ gather rest ;;
      ok (data ++ more)
  end.

(** A snapshot of three particles, one more than the two-body origin. *)
Definition three_body_current : Snapshot :=
  mkSnapshot [(1, 0, 0)%R; (5, 5, 0)%R; (2, 2, 0)%R]
    [(1, 0, 0)%Z; (0, 0, 0)%Z; (0, 0, 0)%Z]
    [(1, 0, 0, 0)%R; (1, 0, 0, 0)%R; (1, 0, 0, 0)%R] [0%Z; (-1)%Z; (-1)%Z]
    (BoxAttr 10 10 10).

(** Two particles that belong to no rigid body, and a snapshot without
    particles. *)
Definition free_particles : Snapshot :=
  mkSnapshot [(1, 0, 0)%R; (5, 5, 0)%R] [(0, 0, 0)%Z; (0, 0, 0)%Z]
    [(1, 0, 0, 0)%R; (1, 0, 0, 0)%R] [(-1)%Z; (-1)%Z] (BoxAttr 10 10 10).

Definition no_particles : Snapshot :=
  mkSnapshot [] [] [] [] (BoxAttr 10 10 10).

(** * Properties *)

(** ** Arrays *)

Section Arrays.
Context {A B C : Type} (f : A -> B -> C).

Lemma broadcast_same (xs : list A) (ys : list B) :
  length xs = length ys ->
  Np.broadcast f xs ys = ok (zip_with f xs ys).
Proof.
  intros Hlen. unfold Np.broadcast.
  apply Nat.eqb_eq in Hlen. now rewrite Hlen.
Qed.

Lemma slice_to_nonneg (n : Z) (l : list A) :
  (0 <= n)%Z -> Np.slice_to n l = take (Z.to_nat n) l.
Proof.
  intros Hn. unfold Np.slice_to.
  apply Z.leb_le in Hn. now rewrite Hn.
Qed.

Lemma slice_to_length_le (n : Z) (l : list A) :
  (0 <= n <= Z.of_nat (length l))%Z ->
  length (Np.slice_to n l) = Z.to_nat n.
Proof.
  intros [H0 Hn]. rewrite slice_to_nonneg by assumption.
  apply length_take_le. lia.
Qed.
End Arrays.

Lemma slice_to_same_length {A B : Type} (n : Z) (l : list A) (k : list B) :
  length l = length k ->
  length (Np.slice_to n l) = length (Np.slice_to n k).
Proof.
  intros Hlen. unfold Np.slice_to.
  destruct (0 <=? n)%Z; rewrite !length_take; lia.
Qed.

Lemma zip_with_diag {A C : Type} (f : A -> A -> C) (l : list A) :
  zip_with f l l = map (fun x => f x x) l.
Proof. induction l as [|x l IH]; simpl; [reflexivity | now rewrite IH]. Qed.

(** ** The periodic unwrapper *)

Section Unwrap.
Variables (self : TimeDep.t) (snapshot : Snapshot) (L : vec3).
Hypothesis Hbox : box_dim snapshot = ok L.
Hypothesis Hpos : length (position snapshot) = length (image snapshot).
Hypothesis Himg : length (image snapshot) = length (TimeDep.image_init self).

Lemma unwrap_ok : TimeDep._unwrap self snapshot = ok (unwrapped self snapshot L).
Proof using Hbox Hpos Himg.
  unfold TimeDep._unwrap. rewrite Hbox. simpl.
  rewrite broadcast_same by assumption. simpl.
  rewrite broadcast_same; [reflexivity|].
  rewrite length_map, length_zip_with. lia.
Qed.

Lemma unwrapped_length : length (unwrapped self snapshot L) = length (position snapshot).
Proof using Hpos Himg.
  unfold unwrapped. rewrite length_zip_with, length_map, length_zip_with. lia.
Qed.

Lemma unwrapped_lookup (i : nat) (p : vec3) (I I0 : ivec3) :
  position snapshot !! i = Some p ->
  image snapshot !! i = Some I ->
  TimeDep.image_init self !! i = Some I0 ->
  (unwrapped self snapshot L) !! i = Some (unwrap_spec p I I0 L).
Proof using Type.
  clear Hbox Hpos Himg. intros Hp HI HI0. unfold unwrapped.
  rewrite lookup_zip_with, Hp. simpl.
  rewrite list_lookup_fmap, lookup_zip_with, HI. simpl. rewrite HI0. simpl.
  destruct p as [[px py] pz], I as [[ix iy] iz], I0 as [[jx jy] jz],
    L as [[lx ly] lz]. reflexivity.
Qed.
End Unwrap.

Lemma box_dim_config (pos : list vec3) (img : list ivec3) (ori : list quat_row)
    (bod : list Z) (Lx Ly Lz : R) (rest : list R) :
  box_dim (mkSnapshot pos img ori bod (ConfigurationBox (Lx :: Ly :: Lz :: rest)))
  = box_dim (mkSnapshot pos img ori bod (BoxAttr Lx Ly Lz)).
Proof. reflexivity. Qed.

(** C2.  With per-body arrays of one length, [_unwrap] returns without
    error one row per body, row [i] being [p + (I - I0) * L] component by
    component; and a snapshot that gives its box as the attributes
    [Lx, Ly, Lz] is unwrapped to the same array as one that gives it as the
    first three entries of [configuration.box]. *)
Theorem unwrap_contract (self : TimeDep.t) (snapshot : Snapshot) (L : vec3) :
  box_dim snapshot = ok L ->
  length (position snapshot) = length (image snapshot) ->
  length (image snapshot) = length (TimeDep.image_init self) ->
  (exists out,
      TimeDep._unwrap self snapshot = ok out /\
      length out = length (position snapshot) /\
      forall i p I I0,
        position snapshot !! i = Some p ->
        image snapshot !! i = Some I ->
        TimeDep.image_init self !! i = Some I0 ->
        out !! i = Some (unwrap_spec p I I0 L)) /\
  (forall Lx Ly Lz rest,
      TimeDep._unwrap self
        (mkSnapshot (position snapshot) (image snapshot) (orientation snapshot)
           (body snapshot) (BoxAttr Lx Ly Lz))
      = TimeDep._unwrap self
        (mkSnapshot (position snapshot) (image snapshot) (orientation snapshot)
           (body snapshot) (ConfigurationBox (Lx :: Ly :: Lz :: rest)))).
Proof.
  intros Hbox Hpos Himg. split.
  - exists (unwrapped self snapshot L). split; [|split].
    + now apply unwrap_ok.
    + now apply unwrapped_length.
    + intros i p I I0 Hp HI HI0. now apply unwrapped_lookup.
  - intros Lx Ly Lz rest. reflexivity.
Qed.

(** ** The displacement engine *)

Lemma sqrt_sum_sq_nonneg (d : vec3) : (0 <= sqrt (Np.sum_sq d))%R.
Proof. apply sqrt_pos. Qed.

Lemma sqrt_sum_sq_sub3 (a b : vec3) :
  sqrt (Np.sum_sq (Np.sub3 a b)) = euclid_spec a b.
Proof. destruct a as [[ax ay] az], b as [[bx by_] bz]. reflexivity. Qed.

Section Displacement.
Variables (self : TimeDep.t) (snapshot : Snapshot) (L : vec3).
Hypothesis Hbox : box_dim snapshot = ok L.
Hypothesis Hpos : length (position snapshot) = length (image snapshot).
Hypothesis Himg : length (image snapshot) = length (TimeDep.image_init self).
Hypothesis Hini : length (position snapshot) = length (TimeDep.pos_init self).

Lemma displacement_ok : TimeDep._displacement self snapshot = ok (displaced self snapshot L).
Proof using Hbox Hpos Himg Hini.
  unfold TimeDep._displacement.
  rewrite (unwrap_ok self snapshot L) by assumption. simpl.
  rewrite broadcast_same; [reflexivity|].
  rewrite unwrapped_length by assumption. exact Hini.
Qed.

Lemma displaced_length : length (displaced self snapshot L) = length (position snapshot).
Proof using Hpos Himg Hini.
  unfold displaced.
  rewrite length_map, length_zip_with, unwrapped_length by assumption. lia.
Qed.

Lemma displaced_lookup (i : nat) (p p0 : vec3) (I I0 : ivec3) :
  position snapshot !! i = Some p ->
  image snapshot !! i = Some I ->
  TimeDep.image_init self !! i = Some I0 ->
  TimeDep.pos_init self !! i = Some p0 ->
  (displaced self snapshot L) !! i = Some (euclid_spec (unwrap_spec p I I0 L) p0).
Proof using Type.
  intros Hp HI HI0 Hp0. unfold displaced.
  rewrite list_lookup_fmap, lookup_zip_with.
  rewrite (unwrapped_lookup self snapshot L i p I I0) by assumption.
  simpl. rewrite Hp0. simpl. now rewrite sqrt_sum_sq_sub3.
Qed.

Lemma displaced_nonneg : Forall (fun d => (0 <= d)%R) (displaced self snapshot L).
Proof using Type.
  unfold displaced. apply Forall_fmap, Forall_forall.
  intros d _. apply sqrt_sum_sq_nonneg.
Qed.
End Displacement.

Lemma scenario_displacement :
  TimeDep._displacement scenario_tracker scenario_current = ok [2%R].
Proof.
  rewrite (displacement_ok scenario_tracker scenario_current (10, 10, 10)%R)
    by reflexivity.
  unfold displaced, unwrapped. simpl. do 2 f_equal.
  match goal with
  | |- sqrt ?e = _ => replace e with (2 * 2)%R
  end; [apply sqrt_square; lra|].
  change (1 - 0)%Z with 1%Z. change (0 - 0)%Z with 0%Z. lra.
Qed.

(** C3.  With per-body arrays of one length, [_displacement] returns one
    non-negative real per body, element [i] being the Euclidean norm of the
    unwrapped position of body [i] minus its initial position; in the
    scenario with box 10, origin (9,0,0) image (0,0,0) and current (1,0,0)
    image (1,0,0) the displacement is 2. *)
Theorem displacement_contract (self : TimeDep.t) (snapshot : Snapshot) (L : vec3) :
  box_dim snapshot = ok L ->
  length (position snapshot) = length (image snapshot) ->
  length (image snapshot) = length (TimeDep.image_init self) ->
  length (position snapshot) = length (TimeDep.pos_init self) ->
  (exists out,
      TimeDep._displacement self snapshot = ok out /\
      length out = length (position snapshot) /\
      Forall (fun d => (0 <= d)%R) out /\
      forall i p p0 I I0,
        position snapshot !! i = Some p ->
        image snapshot !! i = Some I ->
        TimeDep.image_init self !! i = Some I0 ->
        TimeDep.pos_init self !! i = Some p0 ->
        out !! i = Some (euclid_spec (unwrap_spec p I I0 L) p0)) /\
  TimeDep._displacement scenario_tracker scenario_current = ok [2%R].
Proof.
  intros Hbox Hpos Himg Hini. split.
  - exists (displaced self snapshot L). repeat split.
    + now apply displacement_ok.
    + now apply displaced_length.
    + apply displaced_nonneg.
    + intros i p p0 I I0 Hp HI HI0 Hp0. now apply displaced_lookup.
  - exact scenario_displacement.
Qed.

(** ** The displacement engine restricted to the rigid bodies *)

Section RigidDisplacement.
Variables (self : TimeDep2dRigid.t) (snapshot : Snapshot) (L : vec3).
Hypothesis Hbox : box_dim snapshot = ok L.
Hypothesis Hpos : length (position snapshot) = length (image snapshot).
Hypothesis Himg : length (image snapshot) = length (TimeDep.image_init (TimeDep2dRigid.base self)).
Hypothesis Hini : length (position snapshot) = length (TimeDep.pos_init (TimeDep2dRigid.base self)).

Lemma rigid_displacement_ok :
  TimeDep2dRigid._displacement self snapshot = ok (rigid_displaced self snapshot L).
Proof using Hbox Hpos Himg Hini.
  unfold TimeDep2dRigid._displacement.
  rewrite (unwrap_ok (TimeDep2dRigid.base self) snapshot L) by assumption. simpl.
  rewrite broadcast_same; [reflexivity|].
  apply slice_to_same_length.
  rewrite unwrapped_length by assumption. exact Hini.
Qed.

Lemma rigid_displaced_length :
  length (rigid_displaced self snapshot L)
  = length (Np.slice_to (TimeDep2dRigid.bodies self) (position snapshot)).
Proof using Hpos Himg Hini.
  unfold rigid_displaced. rewrite length_map, length_zip_with.
  rewrite <- (slice_to_same_length _
                (unwrapped (TimeDep2dRigid.base self) snapshot L)
                (TimeDep.pos_init (TimeDep2dRigid.base self))).
  - rewrite Nat.min_id. apply slice_to_same_length.
    now rewrite unwrapped_length.
  - rewrite unwrapped_length by assumption. exact Hini.
Qed.

Lemma rigid_displaced_nonneg : Forall (fun d => (0 <= d)%R) (rigid_displaced self snapshot L).
Proof using Type.
  unfold rigid_displaced. apply Forall_fmap, Forall_forall.
  intros d _. apply sqrt_sum_sq_nonneg.
Qed.

Hypothesis HB : (0 <= (TimeDep2dRigid.bodies self) <= Z.of_nat (length (position snapshot)))%Z.

Lemma rigid_displaced_count : length (rigid_displaced self snapshot L) = Z.to_nat (TimeDep2dRigid.bodies self).
Proof using Hpos Himg Hini HB.
  rewrite rigid_displaced_length. now apply slice_to_length_le.
Qed.

(** The result written over the first [bodies] rows of each input array. *)
Lemma rigid_displaced_prefix :
  (rigid_displaced self snapshot L) =
  map (fun d => sqrt (Np.sum_sq d))
    (zip_with Np.sub3
       (zip_with Np.add3 (take (Z.to_nat (TimeDep2dRigid.bodies self)) (position snapshot))
          (map (fun i => Np.imul3 i L)
             (zip_with Np.isub3 (take (Z.to_nat (TimeDep2dRigid.bodies self)) (image snapshot))
                (take (Z.to_nat (TimeDep2dRigid.bodies self)) (TimeDep.image_init (TimeDep2dRigid.base self))))))
       (take (Z.to_nat (TimeDep2dRigid.bodies self)) (TimeDep.pos_init (TimeDep2dRigid.base self)))).
Proof using HB.
  clear Hbox Hpos Himg Hini. unfold rigid_displaced, unwrapped.
  rewrite !slice_to_nonneg by lia.
  now rewrite zip_with_take, <- fmap_take, zip_with_take.
Qed.

Lemma rigid_displaced_lookup (i : nat) (p p0 : vec3) (I I0 : ivec3) :
  (i < Z.to_nat (TimeDep2dRigid.bodies self))%nat ->
  position snapshot !! i = Some p ->
  image snapshot !! i = Some I ->
  TimeDep.image_init (TimeDep2dRigid.base self) !! i = Some I0 ->
  TimeDep.pos_init (TimeDep2dRigid.base self) !! i = Some p0 ->
  (rigid_displaced self snapshot L) !! i = Some (euclid_spec (unwrap_spec p I I0 L) p0).
Proof using HB.
  clear Hbox Hpos Himg Hini. intros Hi Hp HI HI0 Hp0.
  unfold rigid_displaced.
  rewrite !slice_to_nonneg by lia.
  rewrite list_lookup_fmap, lookup_zip_with, !lookup_take_lt by assumption.
  rewrite (unwrapped_lookup (TimeDep2dRigid.base self) snapshot L i p I I0) by assumption.
  simpl. rewrite Hp0. simpl. now rewrite sqrt_sum_sq_sub3.
Qed.
End RigidDisplacement.

Lemma two_body_init :
  TimeDep2dRigid._init_snapshot two_body_origin 0 = ok two_body_tracker.
Proof. reflexivity. Qed.

Lemma two_body_displacement :
  TimeDep2dRigid._displacement two_body_tracker two_body_current = ok [2%R].
Proof.
  rewrite (rigid_displacement_ok two_body_tracker two_body_current
             (10, 10, 10)%R) by reflexivity.
  unfold rigid_displaced, unwrapped. simpl. do 2 f_equal.
  match goal with
  | |- sqrt ?e = _ => replace e with (2 * 2)%R
  end; [apply sqrt_square; lra|].
  change (1 - 0)%Z with 1%Z. change (0 - 0)%Z with 0%Z. lra.
Qed.

(** C8.  When the tracker counts [B] rigid bodies and the per-body arrays
    have [N >= B] rows, the rigid [_displacement] returns exactly [B]
    elements, element [i] being the norm for body [i], and the whole result
    is a function of the first [B] rows of the positions, images and
    initial arrays; a two-body snapshot with [B = 1] gives one element. *)
Theorem rigid_displacement_first_bodies
    (self : TimeDep2dRigid.t) (snapshot : Snapshot) (L : vec3) :
  let origin := TimeDep2dRigid.base self in
  let B := Z.to_nat (TimeDep2dRigid.bodies self) in
  box_dim snapshot = ok L ->
  length (position snapshot) = length (image snapshot) ->
  length (image snapshot) = length (TimeDep.image_init origin) ->
  length (position snapshot) = length (TimeDep.pos_init origin) ->
  (0 <= TimeDep2dRigid.bodies self <= Z.of_nat (length (position snapshot)))%Z ->
  (exists out,
      TimeDep2dRigid._displacement self snapshot = ok out /\
      length out = B /\
      (forall i p p0 I I0,
          (i < B)%nat ->
          position snapshot !! i = Some p ->
          image snapshot !! i = Some I ->
          TimeDep.image_init origin !! i = Some I0 ->
          TimeDep.pos_init origin !! i = Some p0 ->
          out !! i = Some (euclid_spec (unwrap_spec p I I0 L) p0)) /\
      out =
      map (fun d => sqrt (Np.sum_sq d))
        (zip_with Np.sub3
           (zip_with Np.add3 (take B (position snapshot))
              (map (fun i => Np.imul3 i L)
                 (zip_with Np.isub3 (take B (image snapshot))
                    (take B (TimeDep.image_init origin)))))
           (take B (TimeDep.pos_init origin)))) /\
  (length (position two_body_current) = 2%nat /\
   TimeDep2dRigid._init_snapshot two_body_origin 0 = ok two_body_tracker /\
   TimeDep2dRigid.bodies two_body_tracker = 1%Z /\
   exists d, TimeDep2dRigid._displacement two_body_tracker two_body_current
             = ok [d]).
Proof.
  intros origin B Hbox Hpos Himg Hini HB. split.
  - exists (rigid_displaced self snapshot L). repeat split.
    + now apply rigid_displacement_ok.
    + now apply rigid_displaced_count.
    + intros i p p0 I I0 Hi Hp HI HI0 Hp0. now apply rigid_displaced_lookup.
    + now apply rigid_displaced_prefix.
  - repeat split. exists 2%R. exact two_body_displacement.
Qed.

(** ** A tracker observed on its own origin *)

Lemma unwrap_spec_same (p : vec3) (I : ivec3) (L : vec3) :
  unwrap_spec p I I L = p.
Proof.
  destruct p as [[px py] pz], I as [[ix iy] iz], L as [[lx ly] lz].
  unfold unwrap_spec. rewrite !Z.sub_diag.
  f_equal; [f_equal|]; lra.
Qed.

Lemma euclid_spec_same (p : vec3) : euclid_spec p p = 0%R.
Proof.
  destruct p as [[px py] pz]. unfold euclid_spec.
  replace ((px - px) ^ 2 + (py - py) ^ 2 + (pz - pz) ^ 2)%R with 0%R by ring.
  apply sqrt_0.
Qed.

Lemma unwrapped_same (self : TimeDep.t) (snapshot : Snapshot) (L : vec3) :
  TimeDep.image_init self = image snapshot ->
  length (position snapshot) = length (image snapshot) ->
  unwrapped self snapshot L = position snapshot.
Proof.
  intros Hinit Hlen. apply list_eq. intros i.
  destruct (position snapshot !! i) as [p|] eqn:Hp.
  - assert (Hi : (i < length (image snapshot))%nat).
    { rewrite <- Hlen. eapply lookup_lt_Some, Hp. }
    apply lookup_lt_is_Some in Hi. destruct Hi as [I HI].
    rewrite (unwrapped_lookup self snapshot L i p I I); try assumption.
    + now rewrite unwrap_spec_same.
    + now rewrite Hinit.
  - apply lookup_ge_None. apply lookup_ge_None in Hp.
    rewrite unwrapped_length; [assumption | assumption | now rewrite Hinit].
Qed.

Lemma norms_same (l : list vec3) :
  Forall (fun d => d = 0%R)
    (map (fun d => sqrt (Np.sum_sq d)) (zip_with Np.sub3 l l)).
Proof.
  rewrite zip_with_diag, map_map. apply Forall_fmap, Forall_forall.
  intros p _. simpl. rewrite sqrt_sum_sq_sub3. apply euclid_spec_same.
Qed.

Lemma divide_same (q : Quaternion.quaternion) :
  Quaternion.norm q <> 0%R ->
  Quaternion.divide q q = (1, 0, 0, 0)%R.
Proof.
  destruct q as [[[w x] y] z]. unfold Quaternion.divide, Quaternion.norm.
  intros Hn. repeat f_equal; field; exact Hn.
Qed.

Lemma rotation_vector_one :
  Quaternion.as_rotation_vector (1, 0, 0, 0)%R = (0, 0, 0)%R.
Proof.
  unfold Quaternion.as_rotation_vector, Quaternion.normalized, Quaternion.norm.
  replace (1 * 1 + 0 * 0 + 0 * 0 + 0 * 0)%R with 1%R by ring.
  rewrite sqrt_1.
  replace (1 / 1)%R with 1%R by field. replace (0 / 1)%R with 0%R by field.
  unfold Quaternion.log_vec.
  replace (0 * 0 + 0 * 0 + 0 * 0)%R with 0%R by ring. rewrite sqrt_0.
  destruct (Rle_dec (Rabs 0) (Quaternion.QUATERNION_EPS * Rabs 1)) as [_|Hn].
  - destruct (Rlt_dec 1 0) as [Hlt|_]; [lra|].
    repeat f_equal; ring.
  - exfalso. apply Hn. rewrite Rabs_R0, Rabs_R1, Rmult_1_r.
    unfold Quaternion.QUATERNION_EPS.
    left. apply Rinv_0_lt_compat, pow_lt. lra.
Qed.

Lemma rotvec_sum_same (q : Quaternion.quaternion) :
  Quaternion.norm q <> 0%R ->
  TimeDep2dRigid.rotvec_sum (Quaternion.divide q q) = 0%R.
Proof.
  intros Hn. unfold TimeDep2dRigid.rotvec_sum.
  rewrite divide_same, rotation_vector_one by assumption. ring.
Qed.

Lemma cut_zeros (rot : list R) :
  Forall (fun r => r = 0%R) rot ->
  Forall (fun r => r = 0%R)
    (TimeDep2dRigid.add_below (TimeDep2dRigid.sub_above rot)).
Proof.
  intros Hz. unfold TimeDep2dRigid.add_below, TimeDep2dRigid.sub_above.
  rewrite map_map. apply Forall_fmap. eapply Forall_impl; [exact Hz|].
  intros r ->. simpl. pose proof PI_RGT_0 as Hpi.
  destruct (Rgt_dec 0 PI) as [H|_]; [lra|].
  destruct (Rle_dec 0 (- PI)) as [H|_]; [lra|]. reflexivity.
Qed.

Lemma rotations_same (l : list Quaternion.quaternion) :
  Forall (fun q => Quaternion.norm q <> 0%R) l ->
  Forall (fun r => r = 0%R)
    (TimeDep2dRigid.add_below
       (TimeDep2dRigid.sub_above
          (map TimeDep2dRigid.rotvec_sum (zip_with Quaternion.divide l l)))).
Proof.
  intros Hl. apply cut_zeros. rewrite zip_with_diag, map_map.
  apply Forall_fmap. eapply Forall_impl; [exact Hl|].
  intros q Hq. simpl. now apply rotvec_sum_same.
Qed.


Lemma rigid_rows_zero (disp rot : list R) :
  Forall (fun d => d = 0%R) disp ->
  Forall (fun r => r = 0%R) rot ->
  Forall (zero_row true)
    (zip_with (fun d r => mkRow d (Some r) 0 None) disp rot).
Proof.
  intros Hd. revert rot.
  induction Hd as [|d disp -> _ IH]; intros rot Hr; simpl.
  - constructor.
  - destruct Hr as [|r rot -> Hr]; constructor.
    + now repeat split.
    + now apply IH.
Qed.

Lemma rigid_get_data_set_data (self : TimeDep2dRigid.t) (data : DataFrame)
    (snapshot : Snapshot) (timestep : Z) :
  TimeDep2dRigid.get_data (TimeDep2dRigid.set_data self data) snapshot timestep
  = TimeDep2dRigid.get_data self snapshot timestep.
Proof. destruct self as [[s0 t0 p0 i0 d0] b o]. reflexivity. Qed.

(** The constructor stores what [get_data] returns on the origin itself. *)
Lemma rigid_init_get_data (snapshot : Snapshot) (timestep : Z)
    (tracker : TimeDep2dRigid.t) :
  TimeDep2dRigid.__init__ snapshot timestep = ok tracker ->
  TimeDep2dRigid.get_data tracker snapshot timestep
  = ok (TimeDep2dRigid.get_all_data tracker).
Proof.
  unfold TimeDep2dRigid.__init__.
  destruct (TimeDep2dRigid._init_snapshot snapshot timestep) as [e|self];
    [discriminate|]. simpl.
  destruct (TimeDep2dRigid.get_data self snapshot timestep) as [e|data] eqn:Hd;
    [discriminate|]. simpl.
  intros [= <-]. rewrite rigid_get_data_set_data, Hd.
  destruct self as [[s0 t0 p0 i0 d0] b o]. reflexivity.
Qed.

Section Capture.
Variables (snapshot : Snapshot) (timestep : Z).
Hypothesis Hwf : well_formed snapshot.


Lemma rigid_capture :
  exists tr,
    TimeDep2dRigid.__init__ snapshot timestep = ok tr /\
    TimeDep.timestep (TimeDep2dRigid.base tr) = timestep /\
    TimeDep.pos_init (TimeDep2dRigid.base tr) = position snapshot /\
    TimeDep.image_init (TimeDep2dRigid.base tr) = image snapshot /\
    Np.max (body snapshot) = ok (TimeDep2dRigid.bodies tr - 1)%Z /\
    TimeDep2dRigid.orient_init tr
    = Np.slice_to (TimeDep2dRigid.bodies tr) (orientation snapshot) /\
    length (TimeDep2dRigid.get_all_data tr)
    = length (Np.slice_to (TimeDep2dRigid.bodies tr) (position snapshot)) /\
    Forall (zero_row true) (TimeDep2dRigid.get_all_data tr) /\
    TimeDep2dRigid.get_data tr snapshot timestep
    = ok (TimeDep2dRigid.get_all_data tr).
Proof using Hwf.
  destruct Hwf as (Hpos & Hori & _ & Hbody & [L Hbox] & Hq).
  destruct (Np.max (body snapshot)) as [e|m] eqn:Hmax.
  { destruct (body snapshot); [congruence | discriminate]. }
  set (B := (m + 1)%Z).
  set (self := TimeDep2dRigid.mk (TimeDep._init_snapshot snapshot timestep) B
                 (TimeDep2dRigid.array2quat
                    (Np.slice_to B (orientation snapshot)))).
  assert (Hi : TimeDep2dRigid._init_snapshot snapshot timestep = ok self).
  { unfold TimeDep2dRigid._init_snapshot. simpl. now rewrite Hmax. }
  assert (Hd : TimeDep2dRigid._displacement self snapshot
               = ok (rigid_displaced self snapshot L)).
  { apply rigid_displacement_ok; try assumption; simpl; congruence. }
  set (rot := TimeDep2dRigid.add_below
                (TimeDep2dRigid.sub_above
                   (map TimeDep2dRigid.rotvec_sum
                      (zip_with Quaternion.divide
                         (Np.slice_to B (orientation snapshot))
                         (Np.slice_to B (orientation snapshot)))))).
  assert (Hr : TimeDep2dRigid._rotations self snapshot = ok rot).
  { unfold TimeDep2dRigid._rotations. simpl.
    unfold TimeDep2dRigid.array2quat, Quaternion.as_quat_array.
    now rewrite broadcast_same by reflexivity. }
  assert (Hlen : length (rigid_displaced self snapshot L) = length rot).
  { rewrite rigid_displaced_length by (simpl; congruence).
    unfold rot, TimeDep2dRigid.add_below, TimeDep2dRigid.sub_above.
    rewrite !length_map, length_zip_with, Nat.min_id. simpl.
    apply slice_to_same_length. symmetry. exact Hori. }
  set (data := zip_with (fun d r => mkRow d (Some r) 0 None)
                 (rigid_displaced self snapshot L) rot).
  assert (Hg : TimeDep2dRigid.get_data self snapshot timestep = ok data).
  { unfold TimeDep2dRigid.get_data. rewrite Hd. simpl. rewrite Hr. simpl.
    unfold TimeDep2dRigid.frame. apply Nat.eqb_eq in Hlen. rewrite Hlen.
    unfold TimeDep.get_time_diff. simpl. now rewrite Z.sub_diag. }
  assert (Hinit : TimeDep2dRigid.__init__ snapshot timestep
                  = ok (TimeDep2dRigid.set_data self data)).
  { unfold TimeDep2dRigid.__init__. rewrite Hi. simpl. now rewrite Hg. }
  exists (TimeDep2dRigid.set_data self data).
  split; [exact Hinit|]. do 3 (split; [reflexivity|]).
  change (TimeDep2dRigid.get_all_data (TimeDep2dRigid.set_data self data))
    with data.
  change (TimeDep2dRigid.bodies (TimeDep2dRigid.set_data self data)) with B.
  split; [|split; [reflexivity|split; [|split]]].
  - unfold ok. f_equal. unfold B. lia.
  - unfold data. rewrite length_zip_with, <- Hlen, Nat.min_id.
    apply rigid_displaced_length; simpl; congruence.
  - unfold data. apply rigid_rows_zero.
    + unfold rigid_displaced. simpl.
      rewrite unwrapped_same by (simpl; congruence). apply norms_same.
    + unfold rot. apply rotations_same.
      unfold Np.slice_to. destruct (0 <=? B)%Z; now apply Forall_take.
  - now apply rigid_init_get_data.
Qed.
End Capture.


(** ** Elapsed time *)

Lemma base_get_data_time (self : TimeDep.t) (snapshot : Snapshot) (t t' : Z) :
  TimeDep.get_data self snapshot t
  = (data <~ TimeDep.get_data self snapshot t' ;;
     ok (retime (t - TimeDep.timestep self) data)).
Proof.
  unfold TimeDep.get_data.
  destruct (TimeDep._displacement self snapshot) as [e|disp]; simpl;
    [reflexivity|].
  unfold TimeDep.frame, retime, TimeDep.get_time_diff.
  now rewrite map_map.
Qed.

Lemma rigid_get_data_time (self : TimeDep2dRigid.t) (snapshot : Snapshot)
    (t t' : Z) :
  TimeDep2dRigid.get_data self snapshot t
  = (data <~ TimeDep2dRigid.get_data self snapshot t' ;;
     ok (retime (t - TimeDep.timestep (TimeDep2dRigid.base self)) data)).
Proof.
  unfold TimeDep2dRigid.get_data.
  destruct (TimeDep2dRigid._displacement self snapshot) as [e|disp]; simpl;
    [reflexivity|].
  destruct (TimeDep2dRigid._rotations self snapshot) as [e|rot]; simpl;
    [reflexivity|].
  unfold TimeDep2dRigid.frame.
  destruct (Nat.eqb (length disp) (length rot)); simpl; [|reflexivity].
  unfold retime, TimeDep.get_time_diff. f_equal.
  generalize rot. clear rot.
  induction disp as [|d disp IH]; intros [|r rot]; simpl; try reflexivity.
  now rewrite IH.
Qed.

Lemma retime_time (tm : Z) (data : DataFrame) :
  Forall (fun r => time r = tm) (retime tm data).
Proof. unfold retime. apply Forall_fmap, Forall_forall. now intros r _. Qed.

(** C6 (as the code has it).  [get_data] never looks at the order of the
    two timesteps: whether it raises depends on the tracker and the
    snapshot alone, and every row it returns carries the elapsed time
    [timestep - origin timestep], negative when the query is earlier than
    the origin.  This holds for [TimeDep] and for [TimeDep2dRigid]. *)
Theorem elapsed_time_unchecked (snapshot : Snapshot) (t : Z) :
  (forall self : TimeDep.t,
      (forall e t', TimeDep.get_data self snapshot t' = raise e ->
                    TimeDep.get_data self snapshot t = raise e) /\
      (forall data t', TimeDep.get_data self snapshot t' = ok data ->
                       exists data',
                         TimeDep.get_data self snapshot t = ok data' /\
                         length data' = length data /\
                         Forall (fun r => time r = (t - TimeDep.timestep self)%Z)
                           data') /\
      TimeDep.get_time_diff self t = (t - TimeDep.timestep self)%Z) /\
  (forall self : TimeDep2dRigid.t,
      let t0 := TimeDep.timestep (TimeDep2dRigid.base self) in
      (forall e t', TimeDep2dRigid.get_data self snapshot t' = raise e ->
                    TimeDep2dRigid.get_data self snapshot t = raise e) /\
      (forall data t', TimeDep2dRigid.get_data self snapshot t' = ok data ->
                       exists data',
                         TimeDep2dRigid.get_data self snapshot t = ok data' /\
                         length data' = length data /\
                         Forall (fun r => time r = (t - t0)%Z) data')).
Proof.
  split.
  - intros self. split; [|split].
    + intros e t' He. now rewrite (base_get_data_time self snapshot t t'), He.
    + intros data t' Hd.
      rewrite (base_get_data_time self snapshot t t'), Hd. simpl.
      eexists. split; [reflexivity|]. split.
      * unfold retime. now rewrite length_map.
      * apply retime_time.
    + reflexivity.
  - intros self t0. split.
    + intros e t' He. now rewrite (rigid_get_data_time self snapshot t t'), He.
    + intros data t' Hd.
      rewrite (rigid_get_data_time self snapshot t t'), Hd. simpl.
      eexists. split; [reflexivity|]. split.
      * unfold retime. now rewrite length_map.
      * apply retime_time.
Qed.

(** C6, the claim as stated fails: a tracker whose origin is at timestep 10,
    observed at timestep 5, raises nothing and returns a record whose
    elapsed time is -5. *)
Lemma observe_before_origin :
  (5 < TimeDep.timestep late_tracker)%Z /\
  TimeDep.get_data late_tracker scenario_current 5
  = ok [mkRow 2 None (-5) None].
Proof.
  split; [reflexivity|].
  unfold TimeDep.get_data.
  change (TimeDep._displacement late_tracker scenario_current)
    with (TimeDep._displacement scenario_tracker scenario_current).
  now rewrite scenario_displacement.
Qed.

(** ** The rotation engine *)

Section BranchCut.
Local Open Scope R_scope.

Lemma cut_pointwise (rot : list R) :
  TimeDep2dRigid.add_below (TimeDep2dRigid.sub_above rot)
  = map branch_cut_spec rot.
Proof.
  unfold TimeDep2dRigid.add_below, TimeDep2dRigid.sub_above.
  rewrite map_map. apply map_ext. intros s.
  unfold branch_cut_spec. pose proof PI_RGT_0.
  destruct (Rgt_dec s PI) as [Hgt|Hle].
  - destruct (Rle_dec (s - 2 * PI) (- PI)); [lra | reflexivity].
  - reflexivity.
Qed.

Lemma branch_cut_above (s : R) : PI < s -> branch_cut_spec s = s - 2 * PI.
Proof.
  intros H. unfold branch_cut_spec.
  destruct (Rgt_dec s PI); [reflexivity | lra].
Qed.

Lemma branch_cut_below (s : R) : s <= - PI -> branch_cut_spec s = s + 2 * PI.
Proof.
  intros H. unfold branch_cut_spec. pose proof PI_RGT_0.
  destruct (Rgt_dec s PI); [lra|].
  destruct (Rle_dec s (- PI)); [reflexivity | lra].
Qed.

Lemma branch_cut_inside (s : R) : - PI < s <= PI -> branch_cut_spec s = s.
Proof.
  intros H. unfold branch_cut_spec.
  destruct (Rgt_dec s PI); [lra|].
  destruct (Rle_dec s (- PI)); [lra | reflexivity].
Qed.

Lemma branch_cut_range (s : R) :
  - (3 * PI) < s <= 3 * PI -> - PI < branch_cut_spec s <= PI.
Proof.
  intros H. unfold branch_cut_spec.
  destruct (Rgt_dec s PI); [lra|].
  destruct (Rle_dec s (- PI)); lra.
Qed.

(** Bounds on the constants of the example. *)
Lemma PI_lt_13_4 : PI < 13 / 4.
Proof.
  pose proof (PI_2_3_7_ineq 0) as [_ H].
  simpl in H. unfold tg_alt, PI_2_3_7_tg, Ratan_seq in H. simpl in H. lra.
Qed.

Lemma three_lt_PI : 3 < PI.
Proof. pose proof PI2_3_2. lra. Qed.

Lemma sin_3_lower : / 100 < sin 3.
Proof.
  pose proof three_lt_PI.
  destruct (SIN 3) as [H1 _]; [lra | lra |].
  eapply Rlt_le_trans; [|exact H1].
  unfold sin_lb, sin_approx. cbn [sum_f_R0]. unfold sin_term.
  rewrite !INR_IZR_INZ.
  repeat match goal with
  | |- context [Z.of_nat ?n] =>
      let v := eval vm_compute in (Z.of_nat n) in
      change (Z.of_nat n) with v
  end.
  cbn [pow Nat.mul Nat.add]. lra.
Qed.

Lemma cos_3_negative : cos 3 < 0.
Proof.
  pose proof three_lt_PI. pose proof PI_lt_13_4.
  apply cos_lt_0; lra.
Qed.

Lemma atan_tan_3 : atan (sin 3 / cos 3) = 3 - PI.
Proof.
  pose proof three_lt_PI. pose proof PI_lt_13_4.
  rewrite <- (atan_tan (3 - PI)) by lra.
  f_equal. unfold tan.
  replace 3 with ((3 - PI) + PI) at 1 2 by ring.
  rewrite neg_sin, neg_cos.
  assert (cos (3 - PI) <> 0).
  { apply Rgt_not_eq. apply cos_gt_0; lra. }
  field. assumption.
Qed.

Lemma atan2_3 : Quaternion.atan2 (sin 3) (cos 3) = 3.
Proof.
  pose proof cos_3_negative. pose proof sin_3_lower.
  unfold Quaternion.atan2.
  destruct (Rlt_dec 0 (cos 3)); [lra|].
  destruct (Rlt_dec (cos 3) 0); [|lra].
  destruct (Rle_dec 0 (sin 3)); [|lra].
  rewrite atan_tan_3. ring.
Qed.

Lemma sqrt3_bounds : 17 / 10 < sqrt 3 < 2.
Proof.
  split.
  - rewrite <- (sqrt_pow2 (17 / 10)) by lra. apply sqrt_lt_1; lra.
  - rewrite <- (sqrt_pow2 2) by lra. apply sqrt_lt_1; lra.
Qed.

Lemma sqrt3_sq : sqrt 3 * sqrt 3 = 3.
Proof. apply sqrt_sqrt. lra. Qed.

Lemma skew_norm : Quaternion.norm skew_quaternion = 1.
Proof.
  unfold Quaternion.norm, skew_quaternion.
  pose proof sqrt3_bounds. pose proof sqrt3_sq as Hk.
  replace (sin 3 / sqrt 3 * (sin 3 / sqrt 3))
    with (sin 3 * sin 3 / (sqrt 3 * sqrt 3)) by (field; lra).
  rewrite Hk. pose proof (sin2_cos2 3) as Hsc. unfold Rsqr in Hsc. lra.
Qed.

Lemma skew_normalized : Quaternion.normalized skew_quaternion = skew_quaternion.
Proof.
  unfold Quaternion.normalized. rewrite skew_norm, sqrt_1.
  unfold skew_quaternion. pose proof sqrt3_bounds.
  tuple_eq; field; lra.
Qed.

Lemma skew_vector_length :
  sqrt (sin 3 / sqrt 3 * (sin 3 / sqrt 3) + sin 3 / sqrt 3 * (sin 3 / sqrt 3)
        + sin 3 / sqrt 3 * (sin 3 / sqrt 3)) = sin 3.
Proof.
  pose proof sqrt3_bounds. pose proof sqrt3_sq as Hk. pose proof sin_3_lower.
  replace (sin 3 / sqrt 3 * (sin 3 / sqrt 3))
    with (sin 3 * sin 3 / (sqrt 3 * sqrt 3)) by (field; lra).
  rewrite Hk.
  replace (sin 3 * sin 3 / 3 + sin 3 * sin 3 / 3 + sin 3 * sin 3 / 3)
    with (sin 3 * sin 3) by field.
  apply sqrt_square. lra.
Qed.

Lemma skew_log_vec :
  Quaternion.log_vec skew_quaternion
  = (3 / sin 3 * (sin 3 / sqrt 3), 3 / sin 3 * (sin 3 / sqrt 3),
     3 / sin 3 * (sin 3 / sqrt 3)).
Proof.
  unfold Quaternion.log_vec, skew_quaternion.
  rewrite skew_vector_length, atan2_3.
  destruct (Rle_dec (Rabs (sin 3)) (Quaternion.QUATERNION_EPS * Rabs (cos 3)))
    as [Hsmall|_]; [exfalso | reflexivity].
  pose proof sin_3_lower as Hs.
  rewrite (Rabs_pos_eq (sin 3)) in Hsmall by lra.
  assert (Hc : Rabs (cos 3) <= 1).
  { apply Rabs_le. pose proof (COS_bound 3). lra. }
  assert (He : 0 < Quaternion.QUATERNION_EPS < / 100).
  { unfold Quaternion.QUATERNION_EPS. split.
    - apply Rinv_0_lt_compat, pow_lt. lra.
    - apply Rinv_lt_contravar; simpl; lra. }
  pose proof (Rabs_pos (cos 3)). nra.
Qed.

Lemma skew_rotvec_sum : TimeDep2dRigid.rotvec_sum skew_quaternion = 6 * sqrt 3.
Proof.
  unfold TimeDep2dRigid.rotvec_sum, Quaternion.as_rotation_vector.
  rewrite skew_normalized, skew_log_vec.
  pose proof sqrt3_bounds. pose proof sqrt3_sq as Hk. pose proof sin_3_lower.
  apply Rmult_eq_reg_r with (r := sqrt 3); [|lra].
  rewrite Rmult_assoc, Hk. field. lra.
Qed.

Lemma skew_divide :
  Quaternion.divide skew_quaternion (1, 0, 0, 0) = skew_quaternion.
Proof.
  unfold Quaternion.divide, Quaternion.norm, skew_quaternion.
  pose proof sqrt3_bounds. tuple_eq; field; lra.
Qed.

Lemma skew_rotation :
  TimeDep2dRigid._rotations skew_tracker skew_current
  = ok [6 * sqrt 3 - 2 * PI].
Proof.
  unfold TimeDep2dRigid._rotations.
  change (TimeDep2dRigid.array2quat
            (Np.slice_to (TimeDep2dRigid.bodies skew_tracker)
               (orientation skew_current))) with [skew_quaternion].
  change (TimeDep2dRigid.orient_init skew_tracker) with [(1, 0, 0, 0)].
  rewrite broadcast_same by reflexivity.
  change (zip_with Quaternion.divide [skew_quaternion] [(1, 0, 0, 0)])
    with [Quaternion.divide skew_quaternion (1, 0, 0, 0)].
  rewrite skew_divide.
  unfold bind, ok, TimeDep2dRigid.add_below, TimeDep2dRigid.sub_above.
  cbn [map]. rewrite skew_rotvec_sum. f_equal.
  pose proof sqrt3_bounds. pose proof PI_lt_13_4. pose proof PI_RGT_0.
  destruct (Rgt_dec (6 * sqrt 3) PI); [|lra].
  destruct (Rle_dec (6 * sqrt 3 - 2 * PI) (- PI)); [lra | reflexivity].
Qed.
End BranchCut.

(** The correction on one value.  The two masked updates of [_rotations]
    turn a sum [s] into [s - 2 PI] when [s > PI], into [s + 2 PI] when
    [s <= - PI], and leave it alone inside [(- PI, PI]]; they are applied
    once, which brings every [s] with [- 3 PI < s <= 3 PI] into
    [(- PI, PI]]. *)
Theorem branch_cut_contract (s : R) :
  let cut := fun x => TimeDep2dRigid.add_below (TimeDep2dRigid.sub_above [x]) in
  ((PI < s)%R -> cut s = [(s - 2 * PI)%R]) /\
  ((s <= - PI)%R -> cut s = [(s + 2 * PI)%R]) /\
  ((- PI < s <= PI)%R -> cut s = [s]) /\
  (forall eps, (0 < eps)%R ->
     cut (PI + eps)%R = [(- PI + eps)%R] /\
     cut (- PI - eps)%R = [(PI - eps)%R]) /\
  ((- (3 * PI) < s <= 3 * PI)%R ->
     exists r, cut s = [r] /\ (- PI < r <= PI)%R) /\
  (forall self snapshot out,
     TimeDep2dRigid._rotations self snapshot = ok out ->
     exists rot_q,
       Np.broadcast Quaternion.divide
         (TimeDep2dRigid.array2quat
            (Np.slice_to (TimeDep2dRigid.bodies self) (orientation snapshot)))
         (TimeDep2dRigid.orient_init self) = ok rot_q /\
       out = map (fun q => branch_cut_spec (TimeDep2dRigid.rotvec_sum q)) rot_q).
Proof.
  intros cut.
  assert (Hcut : forall x, cut x = [branch_cut_spec x]).
  { intros x. unfold cut. now rewrite cut_pointwise. }
  split; [|split; [|split; [|split; [|split]]]].
  - intros H. now rewrite Hcut, branch_cut_above.
  - intros H. now rewrite Hcut, branch_cut_below.
  - intros H. now rewrite Hcut, branch_cut_inside.
  - intros eps Heps. rewrite !Hcut. split.
    + rewrite branch_cut_above by lra. f_equal. lra.
    + rewrite branch_cut_below by lra. f_equal. lra.
  - intros H. exists (branch_cut_spec s). split; [apply Hcut|].
    now apply branch_cut_range.
  - intros self snapshot out. unfold TimeDep2dRigid._rotations.
    destruct (Np.broadcast _ _ _) as [e|rot_q]; simpl; [discriminate|].
    intros [= <-]. exists rot_q. split; [reflexivity|].
    now rewrite cut_pointwise, map_map.
Qed.

(** Outside the plane.  The tracker is written for bodies that turn about
    the z axis.  For a unit quaternion that turns a body by 6 radians about
    (1,1,1), an orientation no two-dimensional run produces, the three
    components of the rotation vector sum to [6 * sqrt 3], more than
    [3 * PI], and one correction leaves the value above [PI]. *)
Lemma rotation_outside_range :
  TimeDep2dRigid._init_snapshot skew_origin 0 = ok skew_tracker /\
  Quaternion.norm skew_quaternion = 1%R /\
  exists r,
    TimeDep2dRigid._rotations skew_tracker skew_current = ok [r] /\
    ~ (- PI < r <= PI)%R.
Proof.
  split; [reflexivity|]. split; [apply skew_norm|].
  exists (6 * sqrt 3 - 2 * PI)%R. split; [apply skew_rotation|].
  pose proof sqrt3_bounds. pose proof PI_lt_13_4. lra.
Qed.

(** ** Where an IndexError can come from *)

Lemma broadcast_error {A B C : Type} (f : A -> B -> C) (xs : list A)
    (ys : list B) (e : exn) :
  Np.broadcast f xs ys = raise e -> e = ValueError.
Proof.
  unfold Np.broadcast.
  destruct (Nat.eqb (length xs) (length ys)); [discriminate|].
  destruct xs as [|x [|x' xs]]; try discriminate;
    destruct ys as [|y [|y' ys]]; try discriminate; now intros [= <-].
Qed.

Lemma box_dim_error (snapshot : Snapshot) (e : exn) :
  box_dim snapshot = raise e -> e = IndexError.
Proof.
  unfold box_dim. destruct (sbox snapshot) as [Lx Ly Lz|b]; [discriminate|].
  destruct (b !! 0%nat), (b !! 1%nat), (b !! 2%nat);
    try discriminate; now intros [= <-].
Qed.

Lemma unwrap_IndexError (self : TimeDep.t) (snapshot : Snapshot) :
  TimeDep._unwrap self snapshot = raise IndexError ->
  box_dim snapshot = raise IndexError.
Proof.
  unfold TimeDep._unwrap.
  destruct (box_dim snapshot) as [e|L] eqn:Hbox; simpl.
  - intros [= ->]. reflexivity.
  - destruct (Np.broadcast Np.isub3 _ _) as [e|img] eqn:Hb; simpl.
    + apply broadcast_error in Hb. subst e. discriminate.
    + intros Hb'. apply broadcast_error in Hb'. discriminate.
Qed.

Lemma rigid_get_data_IndexError (self : TimeDep2dRigid.t) (snapshot : Snapshot)
    (t : Z) :
  TimeDep2dRigid.get_data self snapshot t = raise IndexError ->
  box_dim snapshot = raise IndexError.
Proof.
  unfold TimeDep2dRigid.get_data, TimeDep2dRigid._displacement.
  destruct (TimeDep._unwrap (TimeDep2dRigid.base self) snapshot)
    as [e|curr] eqn:Hu; simpl.
  - intros [= ->]. now apply unwrap_IndexError in Hu.
  - destruct (Np.broadcast Np.sub3 _ _) as [e|diff] eqn:Hb; simpl.
    + apply broadcast_error in Hb. subst e. discriminate.
    + unfold TimeDep2dRigid._rotations.
      destruct (Np.broadcast Quaternion.divide _ _) as [e|rot_q] eqn:Hq; simpl.
      * apply broadcast_error in Hq. subst e. discriminate.
      * unfold TimeDep2dRigid.frame.
        destruct (Nat.eqb _ _); discriminate.
Qed.

Lemma rigid_get_data_not_KeyError (self : TimeDep2dRigid.t)
    (snapshot : Snapshot) (t : Z) :
  TimeDep2dRigid.get_data self snapshot t <> raise KeyError.
Proof.
  unfold TimeDep2dRigid.get_data, TimeDep2dRigid._displacement,
    TimeDep._unwrap.
  destruct (box_dim snapshot) as [e|L] eqn:Hbox; simpl.
  { apply box_dim_error in Hbox. subst e. discriminate. }
  destruct (Np.broadcast Np.isub3 _ _) as [e|img] eqn:Hb; simpl.
  { apply broadcast_error in Hb. subst e. discriminate. }
  destruct (Np.broadcast Np.add3 _ _) as [e|curr] eqn:Hc; simpl.
  { apply broadcast_error in Hc. subst e. discriminate. }
  destruct (Np.broadcast Np.sub3 _ _) as [e|diff] eqn:Hd; simpl.
  { apply broadcast_error in Hd. subst e. discriminate. }
  unfold TimeDep2dRigid._rotations.
  destruct (Np.broadcast Quaternion.divide _ _) as [e|rot_q] eqn:Hq; simpl.
  { apply broadcast_error in Hq. subst e. discriminate. }
  unfold TimeDep2dRigid.frame. destruct (Nat.eqb _ _); discriminate.
Qed.

(** A snapshot whose box cannot be read cannot become an origin. *)
Lemma rigid_init_box_error (snapshot : Snapshot) (t : Z) :
  box_dim snapshot = raise IndexError ->
  exists e, TimeDep2dRigid.__init__ snapshot t = raise e.
Proof.
  intros Hbox. unfold TimeDep2dRigid.__init__.
  destruct (TimeDep2dRigid._init_snapshot snapshot t) as [e|self]; simpl.
  - now exists e.
  - exists IndexError.
    unfold TimeDep2dRigid.get_data, TimeDep2dRigid._displacement,
      TimeDep._unwrap.
    now rewrite Hbox.
Qed.

(** ** The accumulator *)

Section Accumulator.
Variables (self : TimeDepMany.t) (fs : FileSystem).
Variables (snapshot : Snapshot) (index timestep : Z).

Lemma append_rec_S (depth : nat) :
  TimeDepMany.append_rec (S depth) self fs snapshot index timestep
  = match TimeDepMany.try_get self snapshot index timestep with
    | inr data => (ok tt, (self, TimeDepMany._write_file self fs data))
    | inl IndexError | inl KeyError =>
        TimeDepMany.add_init_rec depth self fs snapshot index timestep
    | inl e => (raise e, (self, fs))
    end.
Proof using Type. reflexivity. Qed.

Lemma add_init_rec_S (depth : nat) :
  TimeDepMany.add_init_rec (S depth) self fs snapshot index timestep
  = match TimeDep2dRigid.__init__ snapshot timestep with
    | inl e => (raise e, (self, fs))
    | inr tracker =>
        TimeDepMany.append_rec depth
          (TimeDepMany.mk (TimeDepMany._path self)
             (<[index := tracker]> (TimeDepMany._snapshots self)))
          fs snapshot index timestep
    end.
Proof using Type. reflexivity. Qed.

Lemma try_get_unseen :
  TimeDepMany._snapshots self !! index = None ->
  TimeDepMany.try_get self snapshot index timestep = raise KeyError.
Proof using Type. intros H. unfold TimeDepMany.try_get. now rewrite H. Qed.

Lemma try_get_seen (tracker : TimeDep2dRigid.t) :
  TimeDepMany._snapshots self !! index = Some tracker ->
  TimeDepMany.try_get self snapshot index timestep
  = (data <~ TimeDep2dRigid.get_data tracker snapshot timestep ;;
     ok (TimeDepMany.set_start_index index data)).
Proof using Type. intros H. unfold TimeDepMany.try_get. now rewrite H. Qed.
End Accumulator.



Section AccumulatorSteps.
Variables (self : TimeDepMany.t) (fs : FileSystem).
Variables (snapshot : Snapshot) (index timestep : Z).

Lemma append_unseen_ok (depth : nat) (tracker : TimeDep2dRigid.t) :
  TimeDepMany._snapshots self !! index = None ->
  TimeDep2dRigid.__init__ snapshot timestep = ok tracker ->
  TimeDepMany.append_rec (S (S (S depth))) self fs snapshot index timestep
  = (ok tt,
     (TimeDepMany.mk (TimeDepMany._path self)
        (<[index := tracker]> (TimeDepMany._snapshots self)),
      TimeDepMany._write_file self fs
        (TimeDepMany.set_start_index index
           (TimeDep2dRigid.get_all_data tracker)))).
Proof using Type.
  intros Hnone Hinit.
  rewrite append_rec_S, try_get_unseen by assumption. unfold raise.
  rewrite add_init_rec_S, Hinit. unfold ok.
  rewrite append_rec_S.
  rewrite (try_get_seen _ _ _ _ tracker) by (simpl; apply lookup_insert_eq).
  now rewrite rigid_init_get_data by assumption.
Qed.

Lemma append_unseen_error (depth : nat) (e : exn) :
  TimeDepMany._snapshots self !! index = None ->
  TimeDep2dRigid.__init__ snapshot timestep = raise e ->
  TimeDepMany.append_rec (S (S depth)) self fs snapshot index timestep
  = (raise e, (self, fs)).
Proof using Type.
  intros Hnone Hinit.
  rewrite append_rec_S, try_get_unseen by assumption. unfold raise.
  rewrite add_init_rec_S, Hinit. reflexivity.
Qed.

Lemma append_seen_ok (depth : nat) (tracker : TimeDep2dRigid.t)
    (data : DataFrame) :
  TimeDepMany._snapshots self !! index = Some tracker ->
  TimeDep2dRigid.get_data tracker snapshot timestep = ok data ->
  TimeDepMany.append_rec (S depth) self fs snapshot index timestep
  = (ok tt,
     (self, TimeDepMany._write_file self fs
              (TimeDepMany.set_start_index index data))).
Proof using Type.
  intros Hsome Hdata.
  rewrite append_rec_S, (try_get_seen _ _ _ _ tracker) by assumption.
  now rewrite Hdata.
Qed.

(** An IndexError of [get_data] sends [append] into [add_init]. *)
Lemma append_seen_IndexError (depth : nat) (tracker : TimeDep2dRigid.t) :
  TimeDepMany._snapshots self !! index = Some tracker ->
  TimeDep2dRigid.get_data tracker snapshot timestep = raise IndexError ->
  TimeDepMany.append_rec (S depth) self fs snapshot index timestep
  = TimeDepMany.add_init_rec depth self fs snapshot index timestep.
Proof using Type.
  intros Hsome Hdata.
  rewrite append_rec_S, (try_get_seen _ _ _ _ tracker) by assumption.
  now rewrite Hdata.
Qed.

End AccumulatorSteps.

Lemma recursion_limit_S3 : exists depth, TimeDepMany.recursion_limit = S (S (S depth)).
Proof. now exists 997%nat. Qed.



(** ** The dataset file *)

Lemma backup_name_differs (s : string) :
  (s ++ ".hdf5")%string <> (s ++ ".hdf5.bak")%string.
Proof.
  induction s as [|c s IH]; simpl; [discriminate|].
  intros [= H]. now apply IH.
Qed.

(** C9.  Constructing an accumulator leaves no file at its path: a file
    that was there is found, unchanged, under the name with suffix
    [.hdf5.bak]; no other file is touched; the accumulator starts without
    trackers, and the first write leaves at the path exactly the rows
    written. *)
Theorem fresh_dataset (filename : option Path) (fs : FileSystem) :
  let self := fst (TimeDepMany.__init__ filename fs) in
  let fs' := snd (TimeDepMany.__init__ filename fs) in
  let target := str (TimeDepMany._path self) in
  let backup := str (with_suffix (TimeDepMany._path self) ".hdf5.bak") in
  fs' !! target = None /\
  (forall old, fs !! target = Some old -> fs' !! backup = Some old) /\
  (fs !! target = None -> fs' = fs) /\
  (forall name, name <> target -> name <> backup -> fs' !! name = fs !! name) /\
  TimeDepMany._snapshots self = ∅ /\
  (forall data, TimeDepMany._write_file self fs' data !! target = Some data).
Proof.
  intros self fs' target backup.
  set (path := match filename with
               | Some f => with_suffix f ".hdf5"
               | None => mkPath "TimeDepMany" ".hdf5"
               end).
  assert (Hself : self = TimeDepMany.mk path ∅) by reflexivity.
  assert (Htarget : target = str path) by reflexivity.
  assert (Hbackup : backup = str (with_suffix path ".hdf5.bak")) by reflexivity.
  assert (Hcheck : fs' = if exists_ fs path
                         then rename fs path (with_suffix path ".hdf5.bak")
                         else fs) by reflexivity.
  assert (Hne : target <> backup).
  { rewrite Htarget, Hbackup. unfold str, with_suffix, path. simpl.
    destruct filename as [f|]; simpl.
    - apply backup_name_differs.
    - discriminate. }
  assert (Hfs : fs' = match fs !! target with
                      | Some old => <[backup := old]> (delete target fs)
                      | None => fs
                      end).
  { rewrite Hcheck, Htarget, Hbackup. unfold exists_, rename.
    destruct (fs !! str path) as [old|] eqn:Hold.
    - now rewrite bool_decide_eq_true_2 by eauto.
    - rewrite bool_decide_eq_false_2; [reflexivity|].
      intros [x Hx]. discriminate. }
  clearbody self fs' target backup.
  assert (Hfresh : fs' !! target = None).
  { rewrite Hfs. destruct (fs !! target) as [old|] eqn:Hold; [|exact Hold].
    rewrite lookup_insert_ne by congruence. apply lookup_delete_eq. }
  split; [exact Hfresh|]. split; [|split; [|split; [|split]]].
  - intros old Hold. rewrite Hfs, Hold. apply lookup_insert_eq.
  - intros Hnone. now rewrite Hfs, Hnone.
  - intros name Ht Hb. rewrite Hfs.
    destruct (fs !! target) as [old|]; [|reflexivity].
    rewrite lookup_insert_ne by congruence.
    apply lookup_delete_ne. congruence.
  - now rewrite Hself.
  - intros data. unfold TimeDepMany._write_file.
    replace (str (TimeDepMany._path self)) with target
      by (now rewrite Htarget, Hself).
    rewrite lookup_insert_eq, Hfresh. reflexivity.
Qed.

(** ** A run of the accumulator *)




Section NoClosedState.
Variables (snapshot : Snapshot) (index timestep : Z).
Variables (fs fs' : FileSystem).

End NoClosedState.




(** ** The theorems at concrete inputs *)

Lemma unwrap_contract_witness :
  box_dim scenario_current = ok (10, 10, 10)%R /\
  length (position scenario_current) = length (image scenario_current) /\
  length (image scenario_current)
  = length (TimeDep.image_init scenario_tracker) /\
  exists out,
    TimeDep._unwrap scenario_tracker scenario_current = ok out /\
    length out = 1%nat.
Proof.
  split; [reflexivity|]. split; [reflexivity|]. split; [reflexivity|].
  destruct (unwrap_contract scenario_tracker scenario_current (10, 10, 10)%R
              eq_refl eq_refl eq_refl) as [(out & Hout & Hlen & _) _].
  exists out. split; [exact Hout | exact Hlen].
Defined.

Lemma displacement_contract_witness :
  box_dim scenario_current = ok (10, 10, 10)%R /\
  length (position scenario_current) = length (image scenario_current) /\
  length (image scenario_current)
  = length (TimeDep.image_init scenario_tracker) /\
  length (position scenario_current)
  = length (TimeDep.pos_init scenario_tracker) /\
  exists out,
    TimeDep._displacement scenario_tracker scenario_current = ok out /\
    length out = 1%nat /\
    Forall (fun d => (0 <= d)%R) out.
Proof.
  do 4 (split; [reflexivity|]).
  destruct (displacement_contract scenario_tracker scenario_current
              (10, 10, 10)%R eq_refl eq_refl eq_refl eq_refl)
    as [(out & Hout & Hlen & Hpos & _) _].
  exists out. split; [exact Hout|]. split; [exact Hlen | exact Hpos].
Defined.

Lemma rigid_displacement_first_bodies_witness :
  box_dim two_body_current = ok (10, 10, 10)%R /\
  length (position two_body_current) = length (image two_body_current) /\
  length (image two_body_current)
  = length (TimeDep.image_init (TimeDep2dRigid.base two_body_tracker)) /\
  length (position two_body_current)
  = length (TimeDep.pos_init (TimeDep2dRigid.base two_body_tracker)) /\
  (0 <= TimeDep2dRigid.bodies two_body_tracker
   <= Z.of_nat (length (position two_body_current)))%Z /\
  exists out,
    TimeDep2dRigid._displacement two_body_tracker two_body_current = ok out /\
    length out = 1%nat.
Proof.
  do 4 (split; [reflexivity|]).
  assert (HB : (0 <= TimeDep2dRigid.bodies two_body_tracker
                <= Z.of_nat (length (position two_body_current)))%Z).
  { simpl. lia. }
  split; [exact HB|].
  destruct (rigid_displacement_first_bodies two_body_tracker two_body_current
              (10, 10, 10)%R eq_refl eq_refl eq_refl eq_refl HB)
    as [(out & Hout & Hlen & _) _].
  exists out. split; [exact Hout | exact Hlen].
Defined.




(** * Further properties of the code *)

(** ** Unwrapping *)

(** X1.  A snapshot whose image counts are those of the origin is
    unwrapped to its own positions: no box length enters. *)
Theorem unwrap_unchanged_image (self : TimeDep.t) (snapshot : Snapshot) :
  (exists L, box_dim snapshot = ok L) ->
  length (position snapshot) = length (image snapshot) ->
  image snapshot = TimeDep.image_init self ->
  TimeDep._unwrap self snapshot = ok (position snapshot).
Proof.
  intros [L Hbox] Hlen Himg.
  rewrite (unwrap_ok self snapshot L) by (trivial; now rewrite <- Himg).
  now rewrite unwrapped_same.
Qed.




(** ** The rigid bodies among all bodies *)

Lemma slice_to_map {A B : Type} (f : A -> B) (n : Z) (l : list A) :
  Np.slice_to n (map f l) = map f (Np.slice_to n l).
Proof.
  unfold Np.slice_to. rewrite length_map.
  destruct (0 <=? n)%Z; symmetry; apply fmap_take.
Qed.

Lemma slice_to_zip_with {A B C : Type} (f : A -> B -> C) (n : Z)
    (l : list A) (k : list B) :
  length l = length k ->
  Np.slice_to n (zip_with f l k)
  = zip_with f (Np.slice_to n l) (Np.slice_to n k).
Proof.
  intros Hlen. unfold Np.slice_to.
  rewrite length_zip_with, <- Hlen, Nat.min_id.
  destruct (0 <=? n)%Z; apply zip_with_take.
Qed.

(** X3.  The displacement of the rigid bodies is the displacement of all
    bodies cut to the first [bodies] entries. *)
Theorem rigid_is_prefix_of_all (self : TimeDep2dRigid.t) (snapshot : Snapshot) :
  (exists L, box_dim snapshot = ok L) ->
  length (position snapshot) = length (image snapshot) ->
  length (image snapshot)
  = length (TimeDep.image_init (TimeDep2dRigid.base self)) ->
  length (position snapshot)
  = length (TimeDep.pos_init (TimeDep2dRigid.base self)) ->
  exists all,
    TimeDep2dRigid._all_displacement self snapshot = ok all /\
    length all = length (position snapshot) /\
    TimeDep2dRigid._displacement self snapshot
    = ok (Np.slice_to (TimeDep2dRigid.bodies self) all).
Proof.
  intros [L Hbox] Hpos Himg Hini.
  exists (displaced (TimeDep2dRigid.base self) snapshot L).
  split; [|split].
  - unfold TimeDep2dRigid._all_displacement. now apply displacement_ok.
  - now apply displaced_length.
  - rewrite (rigid_displacement_ok self snapshot L) by assumption.
    unfold rigid_displaced, displaced. f_equal.
    rewrite slice_to_map, slice_to_zip_with; [reflexivity|].
    rewrite unwrapped_length by assumption. exact Hini.
Qed.

(** ** Rotations in the plane *)

Section PlanarRotation.
Local Open Scope R_scope.

Lemma atan2_upper_half (b w : R) : 0 < b -> 0 < Quaternion.atan2 b w < PI.
Proof.
  intros Hb. unfold Quaternion.atan2. pose proof PI_RGT_0 as Hpi.
  destruct (Rlt_dec 0 w) as [Hw|Hw].
  - assert (Hq : 0 < b / w) by (apply Rdiv_lt_0_compat; assumption).
    pose proof (atan_increasing 0 (b / w) Hq) as Hinc. rewrite atan_0 in Hinc.
    pose proof (atan_bound (b / w)). lra.
  - destruct (Rlt_dec w 0) as [Hw'|Hw'].
    + destruct (Rle_dec 0 b) as [_|Hnb]; [|lra].
      assert (Hq : b / w < 0).
      { unfold Rdiv. apply Rmult_pos_neg; [assumption|].
        now apply Rinv_lt_0_compat. }
      pose proof (atan_increasing (b / w) 0 Hq) as Hinc. rewrite atan_0 in Hinc.
      pose proof (atan_bound (b / w)). lra.
    + destruct (Rlt_dec 0 b) as [_|Hnb]; lra.
Qed.

Lemma planar_log_vec (w z : R) :
  let '(x, y, z') := Quaternion.log_vec (w, 0, 0, z) in
  - PI <= x + y + z' <= PI.
Proof.
  unfold Quaternion.log_vec. pose proof PI_RGT_0 as Hpi.
  replace (0 * 0 + 0 * 0 + z * z) with (Rsqr z) by (unfold Rsqr; ring).
  rewrite sqrt_Rsqr_abs.
  destruct (Rle_dec (Rabs (Rabs z)) (Quaternion.QUATERNION_EPS * Rabs w))
    as [_|Hbig].
  - destruct (Rlt_dec w 0); lra.
  - assert (Hb : 0 < Rabs z).
    { destruct (Rabs_pos z) as [Hlt|Heq]; [exact Hlt|].
      exfalso. apply Hbig. rewrite <- Heq, Rabs_R0.
      apply Rmult_le_pos; [|apply Rabs_pos].
      unfold Quaternion.QUATERNION_EPS. left.
      apply Rinv_0_lt_compat, pow_lt. lra. }
    pose proof (atan2_upper_half (Rabs z) w Hb) as Hv.
    set (v := Quaternion.atan2 (Rabs z) w) in *.
    destruct (Rcase_abs z) as [Hneg|Hpos].
    + rewrite (Rabs_left z Hneg) in *.
      replace (v / - z * 0 + v / - z * 0 + v / - z * z) with (- v)
        by (field; lra).
      lra.
    + rewrite (Rabs_right z Hpos) in *.
      replace (v / z * 0 + v / z * 0 + v / z * z) with v by (field; lra).
      lra.
Qed.

Lemma planar_rotvec_sum (q : Quaternion.quaternion) :
  planar q -> - (2 * PI) <= TimeDep2dRigid.rotvec_sum q <= 2 * PI.
Proof.
  destruct q as [[[w x] y] z]. intros [-> ->].
  unfold TimeDep2dRigid.rotvec_sum, Quaternion.as_rotation_vector,
    Quaternion.normalized.
  set (a := sqrt (Quaternion.norm (w, 0, 0, z))).
  replace (0 / a) with 0 by (unfold Rdiv; ring).
  pose proof (planar_log_vec (w / a) (z / a)) as Hlog.
  destruct (Quaternion.log_vec (w / a, 0, 0, z / a)) as [[lx ly] lz]. lra.
Qed.

Lemma planar_divide (q1 q2 : Quaternion.quaternion) :
  planar q1 -> planar q2 -> planar (Quaternion.divide q1 q2).
Proof.
  destruct q1 as [[[w1 x1] y1] z1], q2 as [[[w2 x2] y2] z2].
  intros [-> ->] [-> ->]. unfold Quaternion.divide, planar.
  split; unfold Rdiv; ring.
Qed.
End PlanarRotation.

Lemma broadcast_Forall {A B C : Type} (f : A -> B -> C) (P : A -> Prop)
    (Q : B -> Prop) (S : C -> Prop) (xs : list A) (ys : list B) (out : list C) :
  (forall x y, P x -> Q y -> S (f x y)) ->
  Forall P xs -> Forall Q ys ->
  Np.broadcast f xs ys = ok out ->
  Forall S out.
Proof.
  intros Hf Hxs Hys. unfold Np.broadcast.
  assert (Hzip : Forall S (zip_with f xs ys)).
  { clear -Hf Hxs Hys. revert ys Hys.
    induction Hxs as [|x xs Hx _ IH]; intros ys Hys; simpl; [constructor|].
    destruct Hys as [|y ys Hy Hys]; constructor; auto. }
  assert (Hleft : forall x, P x -> Forall S (map (f x) ys)).
  { intros x Hx. apply Forall_fmap. eapply Forall_impl; [exact Hys|].
    intros y Hy. simpl. now apply Hf. }
  assert (Hright : forall y, Q y -> Forall S (map (fun x => f x y) xs)).
  { intros y Hy. apply Forall_fmap. eapply Forall_impl; [exact Hxs|].
    intros x Hx. simpl. now apply Hf. }
  destruct (Nat.eqb (length xs) (length ys)).
  { now intros [= <-]. }
  destruct xs as [|x [|x' xs]].
  - destruct ys as [|y [|y' ys]]; try discriminate.
    intros [= <-]. apply (Hright y). now inversion Hys.
  - intros [= <-]. apply (Hleft x). now inversion Hxs.
  - destruct ys as [|y [|y' ys]]; try discriminate.
    intros [= <-]. apply (Hright y). now inversion Hys.
Qed.

Lemma slice_to_Forall {A : Type} (P : A -> Prop) (n : Z) (l : list A) :
  Forall P l -> Forall P (Np.slice_to n l).
Proof. intros H. unfold Np.slice_to. destruct (0 <=? n)%Z; now apply Forall_take. Qed.

(** X4.  For bodies that turn in the plane, every orientation being a
    non-zero quaternion about the z axis, each rotation [_rotations]
    returns lies in [(- PI, PI]]. *)
Theorem planar_rotation_range (self : TimeDep2dRigid.t) (snapshot : Snapshot)
    (out : list R) :
  Forall (fun q => planar q /\ Quaternion.norm q <> 0%R)
    (TimeDep2dRigid.orient_init self) ->
  Forall (fun q => planar q /\ Quaternion.norm q <> 0%R) (orientation snapshot) ->
  TimeDep2dRigid._rotations self snapshot = ok out ->
  Forall (fun r => (- PI < r <= PI)%R) out.
Proof.
  intros Hinit Hcur. unfold TimeDep2dRigid._rotations.
  destruct (Np.broadcast _ _ _) as [e|rot_q] eqn:Hb; simpl; [discriminate|].
  intros [= <-].
  assert (Hplanar : Forall planar rot_q).
  { eapply (broadcast_Forall Quaternion.divide
              (fun q => planar q /\ Quaternion.norm q <> 0%R)
              (fun q => planar q /\ Quaternion.norm q <> 0%R));
      [| |exact Hinit|exact Hb].
    - intros x y [Hx _] [Hy _]. now apply planar_divide.
    - unfold TimeDep2dRigid.array2quat, Quaternion.as_quat_array.
      now apply slice_to_Forall. }
  rewrite cut_pointwise, map_map. apply Forall_fmap.
  eapply Forall_impl; [exact Hplanar|].
  intros q Hq. simpl. apply branch_cut_range.
  pose proof (planar_rotvec_sum q Hq). pose proof PI_RGT_0. lra.
Qed.

(** ** The record kept by a tracker *)

Lemma set_data_get_all_data (self : TimeDep2dRigid.t) (data : DataFrame) :
  TimeDep2dRigid.get_all_data (TimeDep2dRigid.set_data self data) = data.
Proof. reflexivity. Qed.

Lemma set_data_set_data (self : TimeDep2dRigid.t) (d1 d2 : DataFrame) :
  TimeDep2dRigid.set_data (TimeDep2dRigid.set_data self d1) d2
  = TimeDep2dRigid.set_data self d2.
Proof. reflexivity. Qed.

Lemma set_data_own (self : TimeDep2dRigid.t) :
  TimeDep2dRigid.set_data self (TimeDep2dRigid.get_all_data self) = self.
Proof. destruct self as [[s0 t0 p0 i0 d0] b o]. reflexivity. Qed.

Lemma observations_set_data (self : TimeDep2dRigid.t) (data : DataFrame)
    (frames : list (Z * Snapshot)) :
  observations (TimeDep2dRigid.set_data self data) frames
  = observations self frames.
Proof.
  unfold observations. apply map_ext. intros f.
  apply rigid_get_data_set_data.
Qed.

Lemma append_frames_gather (frames : list (Z * Snapshot))
    (dynamics : TimeDep2dRigid.t) :
  append_frames dynamics frames
  = (rows <~ gather (observations dynamics frames) ;;
     ok (TimeDep2dRigid.set_data dynamics
           (TimeDep2dRigid.get_all_data dynamics ++ rows))).
Proof.
  revert dynamics.
  induction frames as [|[step snapshot] rest IH]; intros dynamics; simpl.
  - now rewrite app_nil_r, set_data_own.
  - unfold TimeDep2dRigid.append.
    destruct (TimeDep2dRigid.get_data dynamics snapshot step) as [e|data];
      simpl; [reflexivity|].
    rewrite IH, observations_set_data, set_data_get_all_data.
    destruct (gather (observations dynamics rest)) as [e|more]; simpl;
      [reflexivity|].
    now rewrite set_data_set_data, app_assoc.
Qed.

(** X6.  The frame [run_npt] returns is the zero record of the first
    snapshot followed, in the order of the steps, by the observation of
    each later snapshot against that one origin; the run stops with the
    exception of the first observation that raises. *)
Theorem run_npt_rows (initial : Snapshot) (frames : list (Z * Snapshot)) :
  run_npt initial frames
  = (dynamics <~ TimeDep2dRigid.__init__ initial 0 ;;
     rows <~ gather (observations dynamics frames) ;;
     ok (TimeDep2dRigid.get_all_data dynamics ++ rows)).
Proof.
  unfold run_npt.
  destruct (TimeDep2dRigid.__init__ initial 0) as [e|dynamics]; simpl;
    [reflexivity|].
  rewrite append_frames_gather.
  now destruct (gather (observations dynamics frames)).
Qed.

(** ** Snapshots without rigid bodies, and without bodies *)

Lemma max_all_minus_one (l : list Z) :
  l <> [] -> Forall (fun b => b = (-1)%Z) l -> Np.max l = ok (-1)%Z.
Proof.
  destruct l as [|x rest]; [congruence|]. intros _ Hall.
  inversion Hall as [|? ? -> Hrest]; subst. unfold Np.max. f_equal.
  clear Hall. induction Hrest as [|y rest -> _ IH]; simpl;
    [reflexivity | exact IH].
Qed.

(** X7.  When no particle belongs to a rigid body, every body id being
    [-1], the rigid tracker is built with [bodies = 0] and its record, like
    every observation it makes of a snapshot of the same size, has no rows. *)
Theorem no_rigid_bodies_no_rows (snapshot : Snapshot) (timestep : Z) :
  well_formed snapshot ->
  Forall (fun b => b = (-1)%Z) (body snapshot) ->
  exists tr,
    TimeDep2dRigid.__init__ snapshot timestep = ok tr /\
    TimeDep2dRigid.bodies tr = 0%Z /\
    TimeDep2dRigid.get_all_data tr = [] /\
    forall snapshot' t data,
      TimeDep2dRigid.get_data tr snapshot' t = ok data -> data = [].
Proof.
  intros Hwf Hall.
  destruct (rigid_capture snapshot timestep Hwf)
    as (tr & Hinit & _ & _ & _ & Hmax & _ & Hlen & _).
  destruct Hwf as (_ & _ & _ & Hbody & _).
  rewrite (max_all_minus_one _ Hbody Hall) in Hmax.
  assert (HB : TimeDep2dRigid.bodies tr = 0%Z) by (injection Hmax; lia).
  exists tr. split; [exact Hinit|]. split; [exact HB|]. split.
  - rewrite HB in Hlen. now apply nil_length_inv.
  - intros snapshot' t data. unfold TimeDep2dRigid.get_data.
    destruct (TimeDep2dRigid._displacement tr snapshot') as [e|disp] eqn:Hd;
      simpl; [discriminate|].
    unfold TimeDep2dRigid._displacement in Hd.
    destruct (TimeDep._unwrap _ _) as [e|curr]; simpl in Hd; [discriminate|].
    rewrite HB in Hd. unfold Np.slice_to in Hd. simpl in Hd.
    injection Hd as <-.
    destruct (TimeDep2dRigid._rotations tr snapshot') as [e|rot]; simpl;
      [discriminate|].
    unfold TimeDep2dRigid.frame.
    destruct rot as [|r rot]; simpl; [now intros [= <-] | discriminate].
Qed.

(** X8.  A snapshot with no particles cannot start a rigid tracker: the
    maximum of its empty body array is a ValueError.  An [append] that
    meets it on a new origin index passes the ValueError on, adds no
    tracker and writes nothing. *)
Theorem empty_snapshot_rejected (self : TimeDepMany.t) (fs : FileSystem)
    (snapshot : Snapshot) (index timestep : Z) :
  body snapshot = [] ->
  TimeDep2dRigid.__init__ snapshot timestep = raise ValueError /\
  (TimeDepMany._snapshots self !! index = None ->
   TimeDepMany.append self fs snapshot index timestep
   = (raise ValueError, (self, fs))).
Proof.
  intros Hbody.
  assert (Hinit : TimeDep2dRigid.__init__ snapshot timestep = raise ValueError).
  { unfold TimeDep2dRigid.__init__, TimeDep2dRigid._init_snapshot. simpl.
    now rewrite Hbody. }
  split; [exact Hinit|]. intros Hnone.
  destruct recursion_limit_S3 as [depth Hdepth].
  unfold TimeDepMany.append. rewrite Hdepth.
  now apply append_unseen_error.
Qed.

(** ** What the tracker can raise *)

Lemma rigid_get_data_errors (self : TimeDep2dRigid.t) (snapshot : Snapshot)
    (t : Z) (e : exn) :
  TimeDep2dRigid.get_data self snapshot t = raise e -> tracker_error e.
Proof.
  unfold TimeDep2dRigid.get_data, TimeDep2dRigid._displacement,
    TimeDep._unwrap, tracker_error.
  destruct (box_dim snapshot) as [e0|L] eqn:Hbox; simpl.
  { apply box_dim_error in Hbox. intros [= <-]. now left. }
  destruct (Np.broadcast Np.isub3 _ _) as [e0|img] eqn:Hb; simpl.
  { apply broadcast_error in Hb. intros [= <-]. now right. }
  destruct (Np.broadcast Np.add3 _ _) as [e0|curr] eqn:Hc; simpl.
  { apply broadcast_error in Hc. intros [= <-]. now right. }
  destruct (Np.broadcast Np.sub3 _ _) as [e0|diff] eqn:Hd; simpl.
  { apply broadcast_error in Hd. intros [= <-]. now right. }
  unfold TimeDep2dRigid._rotations.
  destruct (Np.broadcast Quaternion.divide _ _) as [e0|rot_q] eqn:Hq; simpl.
  { apply broadcast_error in Hq. intros [= <-]. now right. }
  unfold TimeDep2dRigid.frame. destruct (Nat.eqb _ _); [discriminate|].
  intros [= <-]. now right.
Qed.

Lemma rigid_init_errors (snapshot : Snapshot) (t : Z) (e : exn) :
  TimeDep2dRigid.__init__ snapshot t = raise e -> tracker_error e.
Proof.
  unfold TimeDep2dRigid.__init__, TimeDep2dRigid._init_snapshot.
  destruct (Np.max _) as [e0|m] eqn:Hmax; simpl.
  { unfold Np.max in Hmax. destruct (body _); [|discriminate].
    injection Hmax as <-. intros [= <-]. now right. }
  destruct (TimeDep2dRigid.get_data _ snapshot t) as [e0|data] eqn:Hd; simpl;
    [|discriminate].
  intros [= <-]. now apply rigid_get_data_errors in Hd.
Qed.

(** X9.  [get_data] of the rigid tracker raises IndexError exactly when the
    snapshot gives its box as an array of fewer than three numbers,
    whatever the tracker and the timestep. *)
Theorem index_error_iff_short_box (self : TimeDep2dRigid.t)
    (snapshot : Snapshot) (t : Z) :
  TimeDep2dRigid.get_data self snapshot t = raise IndexError <->
  exists b, sbox snapshot = ConfigurationBox b /\ (length b < 3)%nat.
Proof.
  split.
  - intros Hd. apply rigid_get_data_IndexError in Hd.
    unfold box_dim in Hd. destruct (sbox snapshot) as [Lx Ly Lz|b];
      [discriminate|].
    exists b. split; [reflexivity|].
    destruct b as [|l0 [|l1 [|l2 rest]]]; simpl; try lia. discriminate.
  - intros (b & Hb & Hlen).
    unfold TimeDep2dRigid.get_data, TimeDep2dRigid._displacement,
      TimeDep._unwrap, box_dim. rewrite Hb.
    destruct b as [|l0 [|l1 [|l2 rest]]]; simpl in *; try reflexivity. lia.
Qed.

(** ** Every way [append] can end *)

Section AppendOutcome.
Variables (self : TimeDepMany.t) (fs : FileSystem).
Variables (snapshot : Snapshot) (index timestep : Z).

Lemma append_outcome (depth : nat) :
  let r := TimeDepMany.append_rec (S (S (S depth))) self fs snapshot index
             timestep in
  (exists tr data,
      TimeDepMany._snapshots self !! index = Some tr /\
      TimeDep2dRigid.get_data tr snapshot timestep = ok data /\
      r = (ok tt, (self, TimeDepMany._write_file self fs
                           (TimeDepMany.set_start_index index data)))) \/
  (exists tr e e',
      TimeDepMany._snapshots self !! index = Some tr /\
      TimeDep2dRigid.get_data tr snapshot timestep = raise e /\
      tracker_error e' /\
      r = (raise e', (self, fs))) \/
  (exists tr,
      TimeDepMany._snapshots self !! index = None /\
      TimeDep2dRigid.__init__ snapshot timestep = ok tr /\
      r = (ok tt,
           (TimeDepMany.mk (TimeDepMany._path self)
              (<[index := tr]> (TimeDepMany._snapshots self)),
            TimeDepMany._write_file self fs
              (TimeDepMany.set_start_index index
                 (TimeDep2dRigid.get_all_data tr))))) \/
  (exists e,
      TimeDepMany._snapshots self !! index = None /\
      TimeDep2dRigid.__init__ snapshot timestep = raise e /\
      tracker_error e /\
      r = (raise e, (self, fs))).
Proof using Type.
  intros r. subst r.
  destruct (TimeDepMany._snapshots self !! index) as [tr|] eqn:Hlook.
  - destruct (TimeDep2dRigid.get_data tr snapshot timestep) as [e|data] eqn:Hd.
    + right; left. exists tr, e.
      assert (He : tracker_error e) by (eapply rigid_get_data_errors, Hd).
      destruct He as [-> | ->].
      * pose proof (rigid_get_data_IndexError _ _ _ Hd) as Hbox.
        destruct (rigid_init_box_error snapshot timestep Hbox) as [e' He'].
        exists e'. split; [reflexivity|]. split; [exact Hd|].
        split; [eapply rigid_init_errors, He'|].
        rewrite (append_seen_IndexError _ _ _ _ _ _ tr) by assumption.
        now rewrite add_init_rec_S, He'.
      * exists ValueError. split; [reflexivity|]. split; [exact Hd|].
        split; [now right|].
        rewrite append_rec_S, (try_get_seen _ _ _ _ tr) by assumption.
        now rewrite Hd.
    + left. exists tr, data. split; [reflexivity|]. split; [exact Hd|].
      now apply (append_seen_ok _ _ _ _ _ _ tr).
  - destruct (TimeDep2dRigid.__init__ snapshot timestep) as [e|tr] eqn:Hinit.
    + right; right; right. exists e. split; [reflexivity|].
      split; [reflexivity|]. split; [eapply rigid_init_errors, Hinit|].
      now apply append_unseen_error.
    + right; right; left. exists tr. split; [reflexivity|].
      split; [reflexivity|]. now apply append_unseen_ok.
Qed.

Lemma append_depth_three (depth : nat) :
  TimeDepMany.append_rec (S (S (S depth))) self fs snapshot index timestep
  = TimeDepMany.append_rec 3 self fs snapshot index timestep.
Proof using Type.
  destruct (TimeDepMany._snapshots self !! index) as [tr|] eqn:Hlook.
  - destruct (TimeDep2dRigid.get_data tr snapshot timestep) as [e|data] eqn:Hd.
    + destruct e.
      * pose proof (rigid_get_data_IndexError _ _ _ Hd) as Hbox.
        destruct (rigid_init_box_error snapshot timestep Hbox) as [e' He'].
        rewrite (append_seen_IndexError self fs snapshot index timestep
                   (S (S depth)) tr Hlook Hd).
        rewrite (append_seen_IndexError self fs snapshot index timestep
                   2%nat tr Hlook Hd).
        now rewrite !add_init_rec_S, He'.
      * now apply rigid_get_data_not_KeyError in Hd.
      * rewrite !append_rec_S, (try_get_seen _ _ _ _ tr Hlook).
        now rewrite Hd.
      * rewrite !append_rec_S, (try_get_seen _ _ _ _ tr Hlook).
        now rewrite Hd.
    + rewrite (append_seen_ok self fs snapshot index timestep
                 (S (S depth)) tr data Hlook Hd).
      now rewrite (append_seen_ok self fs snapshot index timestep
                     2%nat tr data Hlook Hd).
  - destruct (TimeDep2dRigid.__init__ snapshot timestep) as [e|tr] eqn:Hinit.
    + rewrite (append_unseen_error self fs snapshot index timestep
                 (S depth) e Hlook Hinit).
      now rewrite (append_unseen_error self fs snapshot index timestep
                     1%nat e Hlook Hinit).
    + rewrite (append_unseen_ok self fs snapshot index timestep
                 depth tr Hlook Hinit).
      now rewrite (append_unseen_ok self fs snapshot index timestep
                     0%nat tr Hlook Hinit).
Qed.
End AppendOutcome.

(** X10.  [append] and [add_init] call each other at most once: three
    python frames are enough, with any larger number of frames the call
    ends in the same way, and it never ends in a RecursionError. *)
Theorem append_terminates (self : TimeDepMany.t) (fs : FileSystem)
    (snapshot : Snapshot) (index timestep : Z) :
  (forall depth, (3 <= depth)%nat ->
     TimeDepMany.append_rec depth self fs snapshot index timestep
     = TimeDepMany.append self fs snapshot index timestep) /\
  fst (TimeDepMany.append self fs snapshot index timestep)
  <> raise RecursionError.
Proof.
  destruct recursion_limit_S3 as [limit Hlimit]. split.
  - intros depth Hdepth. unfold TimeDepMany.append. rewrite Hlimit.
    destruct depth as [|[|[|depth]]]; try lia.
    rewrite (append_depth_three self fs snapshot index timestep depth).
    now rewrite (append_depth_three self fs snapshot index timestep limit).
  - unfold TimeDepMany.append. rewrite Hlimit.
    destruct (append_outcome self fs snapshot index timestep limit)
      as [(tr & data & _ & _ & ->)
         |[(tr & e & e' & _ & _ & He' & ->)
          |[(tr & _ & _ & ->)|(e & _ & _ & He & ->)]]]; simpl;
      try discriminate.
    + destruct He' as [-> | ->]; discriminate.
    + destruct He as [-> | ->]; discriminate.
Qed.

(** ** What [append] does to the files and to the trackers *)

Lemma tagged_rows (index : Z) (data : DataFrame) :
  Forall (fun r => start_index r = Some index)
    (TimeDepMany.set_start_index index data).
Proof.
  unfold TimeDepMany.set_start_index. apply Forall_fmap, Forall_forall.
  now intros r _.
Qed.

Lemma write_file_lookup (self : TimeDepMany.t) (fs : FileSystem)
    (data : DataFrame) :
  TimeDepMany._write_file self fs data !! str (TimeDepMany._path self)
  = Some (default [] (fs !! str (TimeDepMany._path self)) ++ data) /\
  forall name, name <> str (TimeDepMany._path self) ->
               TimeDepMany._write_file self fs data !! name = fs !! name.
Proof.
  unfold TimeDepMany._write_file. split.
  - apply lookup_insert_eq.
  - intros name Hne. apply lookup_insert_ne. congruence.
Qed.

(** X11.  The dataset only grows: whatever the outcome, [append] keeps its
    path, touches no file but the one at that path, and leaves there the
    rows that were there followed by the rows it wrote, each tagged with
    the origin index; when it raises, the files are as they were. *)
Theorem dataset_append_only (self : TimeDepMany.t) (fs : FileSystem)
    (snapshot : Snapshot) (index timestep : Z) :
  let r := TimeDepMany.append self fs snapshot index timestep in
  let target := str (TimeDepMany._path self) in
  TimeDepMany._path (fst (snd r)) = TimeDepMany._path self /\
  (forall name, name <> target -> snd (snd r) !! name = fs !! name) /\
  (forall e, fst r = raise e -> snd (snd r) = fs) /\
  exists rows,
    Forall (fun row => start_index row = Some index) rows /\
    default [] (snd (snd r) !! target) = default [] (fs !! target) ++ rows.
Proof.
  intros r target. subst r target. unfold TimeDepMany.append.
  destruct recursion_limit_S3 as [limit ->].
  destruct (append_outcome self fs snapshot index timestep limit)
    as [(tr & data & _ & _ & ->)
       |[(tr & e & e' & _ & _ & _ & ->)
        |[(tr & _ & _ & ->)|(e & _ & _ & _ & ->)]]];
    cbn [fst snd TimeDepMany._path TimeDepMany._snapshots].
  - destruct (write_file_lookup self fs
                (TimeDepMany.set_start_index index data)) as [Hat Hother].
    split; [reflexivity|]. split; [exact Hother|]. split; [discriminate|].
    exists (TimeDepMany.set_start_index index data).
    split; [apply tagged_rows|]. now rewrite Hat.
  - split; [reflexivity|]. split; [reflexivity|]. split; [reflexivity|].
    exists []. split; [constructor|]. now rewrite app_nil_r.
  - destruct (write_file_lookup self fs
                (TimeDepMany.set_start_index index
                   (TimeDep2dRigid.get_all_data tr))) as [Hat Hother].
    split; [reflexivity|]. split; [exact Hother|]. split; [discriminate|].
    exists (TimeDepMany.set_start_index index (TimeDep2dRigid.get_all_data tr)).
    split; [apply tagged_rows|]. now rewrite Hat.
  - split; [reflexivity|]. split; [reflexivity|]. split; [reflexivity|].
    exists []. split; [constructor|]. now rewrite app_nil_r.
Qed.

(** X12.  Origins are never lost: an [append] keeps every tracker it finds
    and changes no entry other than the one of its own index, which it
    fills once, when the index is new and the call succeeds. *)
Theorem origins_never_replaced (self : TimeDepMany.t) (fs : FileSystem)
    (snapshot : Snapshot) (index timestep : Z) :
  let r := TimeDepMany.append self fs snapshot index timestep in
  let before := TimeDepMany._snapshots self in
  let after := TimeDepMany._snapshots (fst (snd r)) in
  (forall i tr, before !! i = Some tr -> after !! i = Some tr) /\
  (forall i, i <> index -> after !! i = before !! i) /\
  (after = before \/
   (before !! index = None /\ fst r = ok tt /\
    exists tr, TimeDep2dRigid.__init__ snapshot timestep = ok tr /\
               after = <[index := tr]> before)).
Proof.
  intros r before after. subst r after before. unfold TimeDepMany.append.
  destruct recursion_limit_S3 as [limit ->].
  destruct (append_outcome self fs snapshot index timestep limit)
    as [(tr & data & _ & _ & ->)
       |[(tr & e & e' & _ & _ & _ & ->)
        |[(tr & Hnone & Hinit & ->)|(e & _ & _ & _ & ->)]]];
    cbn [fst snd TimeDepMany._path TimeDepMany._snapshots];
    try (split; [auto|]; split; [auto|]; now left).
  split; [|split].
  - intros i tr' Hi. rewrite lookup_insert_ne; [exact Hi|]. congruence.
  - intros i Hi. now apply lookup_insert_ne.
  - right. split; [exact Hnone|]. split; [reflexivity|]. now exists tr.
Qed.

(** ** Snapshots of another size *)

Lemma broadcast_mismatch {A B C : Type} (f : A -> B -> C) (xs : list A)
    (ys : list B) :
  length xs <> length ys -> length xs <> 1%nat -> length ys <> 1%nat ->
  Np.broadcast f xs ys = raise ValueError.
Proof.
  intros Hne Hx Hy. unfold Np.broadcast.
  apply Nat.eqb_neq in Hne. rewrite Hne.
  destruct xs as [|x [|x' xs]]; destruct ys as [|y [|y' ys]];
    simpl in *; congruence.
Qed.

(** X13.  A snapshot with another number of particles than the origin,
    neither number being one, is refused with a ValueError, which [append]
    does not catch: the caller gets it, the tracker stays and nothing is
    written. *)
Theorem body_count_mismatch (self : TimeDepMany.t) (fs : FileSystem)
    (snapshot : Snapshot) (index timestep : Z) (tracker : TimeDep2dRigid.t) :
  TimeDepMany._snapshots self !! index = Some tracker ->
  (exists L, box_dim snapshot = ok L) ->
  length (image snapshot)
  <> length (TimeDep.image_init (TimeDep2dRigid.base tracker)) ->
  length (image snapshot) <> 1%nat ->
  length (TimeDep.image_init (TimeDep2dRigid.base tracker)) <> 1%nat ->
  TimeDep2dRigid.get_data tracker snapshot timestep = raise ValueError /\
  TimeDepMany.append self fs snapshot index timestep
  = (raise ValueError, (self, fs)).
Proof.
  intros Hsome [L Hbox] Hne H1 H2.
  assert (Hd : TimeDep2dRigid.get_data tracker snapshot timestep
               = raise ValueError).
  { unfold TimeDep2dRigid.get_data, TimeDep2dRigid._displacement,
      TimeDep._unwrap.
    rewrite Hbox. simpl. now rewrite broadcast_mismatch. }
  split; [exact Hd|].
  destruct recursion_limit_S3 as [limit Hlimit].
  unfold TimeDepMany.append. rewrite Hlimit.
  rewrite append_rec_S, (try_get_seen _ _ _ _ tracker Hsome).
  now rewrite Hd.
Qed.

Lemma body_count_mismatch_witness :
  TimeDepMany._snapshots (one_origin two_body_tracker) !! 0%Z
  = Some two_body_tracker /\
  TimeDepMany.append (one_origin two_body_tracker) ∅ three_body_current 0 5
  = (raise ValueError, (one_origin two_body_tracker, ∅)).
Proof.
  assert (Hsome : TimeDepMany._snapshots (one_origin two_body_tracker) !! 0%Z
                  = Some two_body_tracker) by apply lookup_singleton_eq.
  split; [exact Hsome|].
  refine (proj2 (body_count_mismatch (one_origin two_body_tracker) ∅
                   three_body_current 0 5 two_body_tracker Hsome _ _ _ _)).
  - exists (10, 10, 10)%R. reflexivity.
  - simpl. lia.
  - simpl. lia.
  - simpl. lia.
Defined.



(** ** Constructing an accumulator again *)

Lemma check_files_lookup (self : TimeDepMany.t) (fs : FileSystem) :
  suffix (TimeDepMany._path self) = ".hdf5" ->
  TimeDepMany._check_files self fs !! str (TimeDepMany._path self) = None /\
  forall old,
    fs !! str (TimeDepMany._path self) = Some old ->
    TimeDepMany._check_files self fs
      !! str (with_suffix (TimeDepMany._path self) ".hdf5.bak") = Some old.
Proof.
  intros Hsuffix.
  assert (Hne : str (with_suffix (TimeDepMany._path self) ".hdf5.bak")
                <> str (TimeDepMany._path self)).
  { unfold str, with_suffix. simpl. rewrite Hsuffix.
    intros Heq. symmetry in Heq. revert Heq. apply backup_name_differs. }
  unfold TimeDepMany._check_files, exists_, rename.
  destruct (fs !! str (TimeDepMany._path self)) as [old|] eqn:Hold.
  - rewrite bool_decide_eq_true_2 by eauto. split.
    + rewrite lookup_insert_ne by exact Hne. apply lookup_delete_eq.
    + intros old' [= <-]. apply lookup_insert_eq.
  - rewrite bool_decide_eq_false_2; [|intros [x Hx]; discriminate].
    split; [exact Hold | discriminate].
Qed.

Lemma init_path_suffix (filename : option Path) (fs : FileSystem) :
  suffix (TimeDepMany._path (fst (TimeDepMany.__init__ filename fs))) = ".hdf5".
Proof. now destruct filename. Qed.

Lemma init_files (filename : option Path) (fs : FileSystem) :
  snd (TimeDepMany.__init__ filename fs)
  = TimeDepMany._check_files (fst (TimeDepMany.__init__ filename fs)) fs.
Proof. reflexivity. Qed.

Lemma init_path_any_files (filename : option Path) (fs fs' : FileSystem) :
  fst (TimeDepMany.__init__ filename fs') = fst (TimeDepMany.__init__ filename fs).
Proof. reflexivity. Qed.

(** X15.  One backup is kept, not a history: when an accumulator is
    constructed, writes its rows, and an accumulator is constructed again
    for the same file name, the rows of the first are then found under the
    [.hdf5.bak] name, in place of whatever backup was there, and the path
    itself is free again. *)
Theorem second_construction_replaces_backup (filename : option Path)
    (fs : FileSystem) (data : DataFrame) :
  let first := TimeDepMany.__init__ filename fs in
  let written := TimeDepMany._write_file (fst first) (snd first) data in
  let second := TimeDepMany.__init__ filename written in
  let target := str (TimeDepMany._path (fst first)) in
  let backup := str (with_suffix (TimeDepMany._path (fst first)) ".hdf5.bak") in
  TimeDepMany._path (fst second) = TimeDepMany._path (fst first) /\
  written !! target = Some data /\
  snd second !! target = None /\
  snd second !! backup = Some data.
Proof.
  intros first written second target backup.
  pose proof (init_path_suffix filename fs) as Hsuffix. fold first in Hsuffix.
  destruct (check_files_lookup (fst first) fs Hsuffix) as [Hfresh _].
  assert (Hwritten : written !! target = Some data).
  { subst written target.
    destruct (write_file_lookup (fst first) (snd first) data) as [Hat _].
    rewrite Hat. subst first. rewrite init_files, Hfresh. reflexivity. }
  assert (Hsecond : snd second
                    = TimeDepMany._check_files (fst first) written).
  { subst second. rewrite init_files.
    now rewrite (init_path_any_files filename fs written). }
  destruct (check_files_lookup (fst first) written Hsuffix) as [Hfree Hbak].
  split; [reflexivity|]. split; [exact Hwritten|]. split.
  - rewrite Hsecond. exact Hfree.
  - rewrite Hsecond. apply Hbak. exact Hwritten.
Qed.

(** ** The further theorems at concrete inputs *)

Lemma unwrap_unchanged_image_witness :
  (exists L, box_dim scenario_origin = ok L) /\
  length (position scenario_origin) = length (image scenario_origin) /\
  image scenario_origin = TimeDep.image_init scenario_tracker /\
  TimeDep._unwrap scenario_tracker scenario_origin = ok [(9, 0, 0)%R].
Proof.
  assert (Hbox : exists L, box_dim scenario_origin = ok L)
    by (exists (10, 10, 10)%R; reflexivity).
  split; [exact Hbox|]. split; [reflexivity|]. split; [reflexivity|].
  exact (unwrap_unchanged_image scenario_tracker scenario_origin Hbox
           eq_refl eq_refl).
Defined.


Lemma rigid_is_prefix_of_all_witness :
  (exists L, box_dim two_body_current = ok L) /\
  length (position two_body_current) = length (image two_body_current) /\
  length (image two_body_current)
  = length (TimeDep.image_init (TimeDep2dRigid.base two_body_tracker)) /\
  length (position two_body_current)
  = length (TimeDep.pos_init (TimeDep2dRigid.base two_body_tracker)) /\
  exists all,
    TimeDep2dRigid._all_displacement two_body_tracker two_body_current = ok all /\
    length all = 2%nat /\
    TimeDep2dRigid._displacement two_body_tracker two_body_current
    = ok (Np.slice_to 1 all).
Proof.
  assert (Hbox : exists L, box_dim two_body_current = ok L)
    by (exists (10, 10, 10)%R; reflexivity).
  split; [exact Hbox|]. do 3 (split; [reflexivity|]).
  exact (rigid_is_prefix_of_all two_body_tracker two_body_current Hbox
           eq_refl eq_refl eq_refl).
Defined.

Lemma planar_rotation_range_witness :
  Forall (fun q => planar q /\ Quaternion.norm q <> 0%R)
    (TimeDep2dRigid.orient_init two_body_tracker) /\
  Forall (fun q => planar q /\ Quaternion.norm q <> 0%R)
    (orientation two_body_current) /\
  exists out,
    TimeDep2dRigid._rotations two_body_tracker two_body_current = ok out /\
    Forall (fun r => (- PI < r <= PI)%R) out.
Proof.
  assert (Hone : planar (1, 0, 0, 0)%R /\ Quaternion.norm (1, 0, 0, 0)%R <> 0%R).
  { split; [now split|]. unfold Quaternion.norm. lra. }
  assert (Hinit : Forall (fun q => planar q /\ Quaternion.norm q <> 0%R)
                    (TimeDep2dRigid.orient_init two_body_tracker))
    by (repeat constructor; apply Hone).
  assert (Hcur : Forall (fun q => planar q /\ Quaternion.norm q <> 0%R)
                   (orientation two_body_current))
    by (repeat constructor; apply Hone).
  split; [exact Hinit|]. split; [exact Hcur|].
  exists (TimeDep2dRigid.add_below
            (TimeDep2dRigid.sub_above
               (map TimeDep2dRigid.rotvec_sum
                  [Quaternion.divide (1, 0, 0, 0)%R (1, 0, 0, 0)%R]))).
  split; [reflexivity|].
  exact (planar_rotation_range two_body_tracker two_body_current _
           Hinit Hcur eq_refl).
Defined.

Lemma no_rigid_bodies_no_rows_witness :
  well_formed free_particles /\
  Forall (fun b => b = (-1)%Z) (body free_particles) /\
  exists tr,
    TimeDep2dRigid.__init__ free_particles 0 = ok tr /\
    TimeDep2dRigid.get_all_data tr = [].
Proof.
  assert (Hwf : well_formed free_particles).
  { unfold well_formed. simpl. repeat split; try discriminate.
    - now exists (10, 10, 10)%R.
    - repeat constructor; unfold Quaternion.norm; lra. }
  assert (Hall : Forall (fun b => b = (-1)%Z) (body free_particles))
    by (repeat constructor).
  split; [exact Hwf|]. split; [exact Hall|].
  destruct (no_rigid_bodies_no_rows free_particles 0 Hwf Hall)
    as (tr & Hinit & _ & Hdata & _).
  exists tr. split; [exact Hinit | exact Hdata].
Defined.

Lemma empty_snapshot_rejected_witness :
  body no_particles = [] /\
  TimeDepMany.append (TimeDepMany.mk default_path ∅) ∅ no_particles 0 0
  = (raise ValueError, (TimeDepMany.mk default_path ∅, ∅)).
Proof.
  split; [reflexivity|].
  apply (proj2 (empty_snapshot_rejected (TimeDepMany.mk default_path ∅) ∅
                  no_particles 0 0 eq_refl)).
  apply lookup_empty.
Defined.

(** ** The rotation engine on its domain *)

(** C4.  For bodies that turn in the plane, every orientation being a
    non-zero quaternion about the z axis, [_rotations] returns one value
    per relative quaternion; with [s] the sum of the three components of
    its rotation vector, the value is [s - 2 PI] when [s > PI], [s + 2 PI]
    when [s <= - PI] and [s] itself when [s] is in [(- PI, PI]], and it
    always lies in [(- PI, PI]].  In particular the correction sends
    [PI + eps] to [- PI + eps] and [- PI - eps] to [PI - eps]. *)
Theorem rotation_branch_cut (self : TimeDep2dRigid.t) (snapshot : Snapshot)
    (out : list R) :
  Forall (fun q => planar q /\ Quaternion.norm q <> 0%R)
    (TimeDep2dRigid.orient_init self) ->
  Forall (fun q => planar q /\ Quaternion.norm q <> 0%R) (orientation snapshot) ->
  TimeDep2dRigid._rotations self snapshot = ok out ->
  exists rot_q,
    Np.broadcast Quaternion.divide
      (TimeDep2dRigid.array2quat
         (Np.slice_to (TimeDep2dRigid.bodies self) (orientation snapshot)))
      (TimeDep2dRigid.orient_init self) = ok rot_q /\
    length out = length rot_q /\
    (forall i q r,
        rot_q !! i = Some q -> out !! i = Some r ->
        let s := TimeDep2dRigid.rotvec_sum q in
        ((PI < s)%R -> r = (s - 2 * PI)%R) /\
        ((s <= - PI)%R -> r = (s + 2 * PI)%R) /\
        ((- PI < s <= PI)%R -> r = s) /\
        (- PI < r <= PI)%R) /\
    (forall eps, (0 < eps)%R ->
        TimeDep2dRigid.add_below (TimeDep2dRigid.sub_above [(PI + eps)%R])
        = [(- PI + eps)%R] /\
        TimeDep2dRigid.add_below (TimeDep2dRigid.sub_above [(- PI - eps)%R])
        = [(PI - eps)%R]).
Proof.
  intros Hinit Hcur. unfold TimeDep2dRigid._rotations.
  destruct (Np.broadcast _ _ _) as [e|rot_q] eqn:Hb; cbn [bind];
    [discriminate|].
  unfold ok. intros [= <-]. exists rot_q. split; [reflexivity|].
  assert (Hplanar : Forall planar rot_q).
  { eapply (broadcast_Forall Quaternion.divide
              (fun q => planar q /\ Quaternion.norm q <> 0%R)
              (fun q => planar q /\ Quaternion.norm q <> 0%R));
      [| |exact Hinit|exact Hb].
    - intros x y [Hx _] [Hy _]. now apply planar_divide.
    - unfold TimeDep2dRigid.array2quat, Quaternion.as_quat_array.
      now apply slice_to_Forall. }
  rewrite cut_pointwise, map_map. split; [now rewrite length_map|]. split.
  - intros i q r Hq Hr.
    rewrite list_lookup_fmap, Hq in Hr. simpl in Hr. injection Hr as <-.
    set (s := TimeDep2dRigid.rotvec_sum q).
    assert (Hs : (- (2 * PI) <= s <= 2 * PI)%R).
    { apply planar_rotvec_sum. eapply Forall_lookup_1; eassumption. }
    pose proof PI_RGT_0 as Hpi.
    split; [intros H; now apply branch_cut_above|].
    split; [intros H; now apply branch_cut_below|].
    split; [intros H; now apply branch_cut_inside|].
    apply branch_cut_range. lra.
  - intros eps Heps. rewrite !cut_pointwise. cbn [map].
    pose proof PI_RGT_0 as Hpi. split.
    + rewrite branch_cut_above by lra. f_equal. lra.
    + rewrite branch_cut_below by lra. f_equal. lra.
Qed.

Lemma rotation_branch_cut_witness :
  Forall (fun q => planar q /\ Quaternion.norm q <> 0%R)
    (TimeDep2dRigid.orient_init two_body_tracker) /\
  Forall (fun q => planar q /\ Quaternion.norm q <> 0%R)
    (orientation two_body_current) /\
  exists (out : list R) (rot_q : list Quaternion.quaternion),
    TimeDep2dRigid._rotations two_body_tracker two_body_current = ok out /\
    length out = length rot_q /\
    length rot_q = 1%nat.
Proof.
  assert (Hone : planar (1, 0, 0, 0)%R /\ Quaternion.norm (1, 0, 0, 0)%R <> 0%R).
  { split; [now split|]. unfold Quaternion.norm. lra. }
  assert (Hinit : Forall (fun q => planar q /\ Quaternion.norm q <> 0%R)
                    (TimeDep2dRigid.orient_init two_body_tracker))
    by (repeat constructor; apply Hone).
  assert (Hcur : Forall (fun q => planar q /\ Quaternion.norm q <> 0%R)
                   (orientation two_body_current))
    by (repeat constructor; apply Hone).
  split; [exact Hinit|]. split; [exact Hcur|].
  destruct (rotation_branch_cut two_body_tracker two_body_current
              (TimeDep2dRigid.add_below
                 (TimeDep2dRigid.sub_above
                    (map TimeDep2dRigid.rotvec_sum
                       [Quaternion.divide (1, 0, 0, 0)%R (1, 0, 0, 0)%R])))
              Hinit Hcur eq_refl) as (rot_q & Hb & Hlen & _).
  eexists _, rot_q. split; [reflexivity|]. split; [exact Hlen|].
  change (Np.broadcast Quaternion.divide
            (TimeDep2dRigid.array2quat
               (Np.slice_to (TimeDep2dRigid.bodies two_body_tracker)
                  (orientation two_body_current)))
            (TimeDep2dRigid.orient_init two_body_tracker))
    with (@ok (list Quaternion.quaternion)
            [Quaternion.divide (1, 0, 0, 0)%R (1, 0, 0, 0)%R]) in Hb.
  injection Hb as <-. reflexivity.
Defined.
